(** * go-commons / grpc: the unary interceptor pipeline of the gRPC server

    A shallow embedding of [grpc/server.go] (package [grpc]): the interceptor
    chain assembled by [newGRPCServerWithListener], the debug-logging
    interceptor, the panic-recovery function, the error classifier
    [handleErr] with its interceptor, and the listener resolver
    [newGRPCListener].

    Go code is effectful: every capability method ([LogError], [ReportError],
    [Debug], ...) and the downstream handler may read and change application
    state, and any call may panic.  The embedding therefore runs in a small
    monad [M] that threads an abstract [World], records each call the package
    makes on a collaborator as an [Event], and propagates panics. *)

From Stdlib Require Import String Ascii List ZArith Lia Bool.
From Stdlib Require Import DecimalString.
Import ListNotations.
Local Open Scope string_scope.
Local Open Scope Z_scope.

(* ------------------------------------------------------------------ *)
(** ** Strings *)

Module Str.

(** The double-quote character (code point 34). *)
Definition dquote_char : ascii := ascii_of_nat 34.
Definition dquote : string := String dquote_char EmptyString.

Fixpoint mem (c : ascii) (s : string) : bool :=
  match s with
  | EmptyString => false
  | String d s' => Ascii.eqb c d || mem c s'
  end.

(** [strings.Contains s sub]: [sub] occurs in [s] as a contiguous run. *)
Fixpoint Contains (s sub : string) : bool :=
  String.prefix sub s ||
  match s with
  | EmptyString => false
  | String _ s' => Contains s' sub
  end.

Definition slash : ascii := "/"%char.

Fixpoint drop_slashes (l : list ascii) : list ascii :=
  match l with
  | c :: l' => if Ascii.eqb c slash then drop_slashes l' else l
  | [] => []
  end.

Fixpoint take_to_slash (l : list ascii) : list ascii :=
  match l with
  | c :: l' => if Ascii.eqb c slash then [] else c :: take_to_slash l'
  | [] => []
  end.

End Str.

(** Go's [path.Base]: the last element of a slash-separated path.  Trailing
    slashes are removed first; the empty path gives ["."], a path of slashes
    only gives ["/"]. *)
Definition path_Base (path : string) : string :=
  match path with
  | EmptyString => "."
  | _ =>
      (* work on the reversed path: trailing slashes are leading ones *)
      let stripped := Str.drop_slashes (rev (list_ascii_of_string path)) in
      let last := rev (Str.take_to_slash stripped) in
      match last with
      | [] => "/"
      | _ => string_of_list_ascii last
      end
  end.

(** [%d] of a Go [int]. *)
Definition fmt_d (n : Z) : string := NilZero.string_of_int (Z.to_int n).

(** Go's [int] on the 64-bit targets the server runs on: arithmetic wraps. *)
Definition int_min : Z := - 2 ^ 63.
Definition int_max : Z := 2 ^ 63 - 1.
Definition int_wrap (n : Z) : Z := (n + 2 ^ 63) mod 2 ^ 64 - 2 ^ 63.
Definition int_sub (a b : Z) : Z := int_wrap (a - b).

(* ------------------------------------------------------------------ *)
(** ** gRPC status codes and statuses *)

(** [codes.Code] is a [uint32]. *)
Definition Code : Type := N.

Module codes.
Definition OK : Code := 0%N.
Definition Canceled : Code := 1%N.
Definition Unknown : Code := 2%N.
Definition InvalidArgument : Code := 3%N.
Definition DeadlineExceeded : Code := 4%N.
Definition NotFound : Code := 5%N.
Definition AlreadyExists : Code := 6%N.
Definition PermissionDenied : Code := 7%N.
Definition ResourceExhausted : Code := 8%N.
Definition FailedPrecondition : Code := 9%N.
Definition Aborted : Code := 10%N.
Definition OutOfRange : Code := 11%N.
Definition Unimplemented : Code := 12%N.
Definition Internal : Code := 13%N.
Definition Unavailable : Code := 14%N.
Definition DataLoss : Code := 15%N.
Definition Unauthenticated : Code := 16%N.

(** [Code.String()]. *)
Definition String (c : Code) : string :=
  match c with
  | 0%N => "OK"
  | 1%N => "Canceled"
  | 2%N => "Unknown"
  | 3%N => "InvalidArgument"
  | 4%N => "DeadlineExceeded"
  | 5%N => "NotFound"
  | 6%N => "AlreadyExists"
  | 7%N => "PermissionDenied"
  | 8%N => "ResourceExhausted"
  | 9%N => "FailedPrecondition"
  | 10%N => "Aborted"
  | 11%N => "OutOfRange"
  | 12%N => "Unimplemented"
  | 13%N => "Internal"
  | 14%N => "Unavailable"
  | 15%N => "DataLoss"
  | 16%N => "Unauthenticated"
  | _ => "Code(" ++ fmt_d (Z.of_N c) ++ ")"
  end.
End codes.

(** [status.Status]: a code and a message.  A [*status.Status] may be nil,
    which is [None] of [option Status]. *)
Record Status : Type := mkStatus {
  status_code : Code;
  status_message : string
}.

Definition status_New (c : Code) (msg : string) : Status := mkStatus c msg.


(* ------------------------------------------------------------------ *)
(** ** Errors *)

(** The Go [error] values the package sees.  [nil] is [None] of
    [option error]. *)
Inductive error : Type :=
| context_Canceled
    (* the sentinel context.Canceled *)
| errors_New (text : string)
    (* errors.New(text) *)
| fmt_Errorf_w (prefix : string) (wrapped : error)
    (* fmt.Errorf(prefix + "%w", wrapped): the text is the prefix followed
       by the wrapped error's text, and Unwrap gives the wrapped error *)
| status_error (s : Status)
    (* *status.Error, what Status.Err() returns for a code other than OK *)
| foreign_error (text : string) (is_canceled : bool).
    (* an error of a type declared elsewhere; is_canceled is what its own
       Is / Unwrap chain answers for context.Canceled *)

(** [err.Error()]. *)
Fixpoint Error (e : error) : string :=
  match e with
  | context_Canceled => "context canceled"
  | errors_New t => t
  | fmt_Errorf_w p w => p ++ Error w
  | status_error s =>
      "rpc error: code = " ++ codes.String (status_code s)
        ++ " desc = " ++ status_message s
  | foreign_error t _ => t
  end.

(** [errors.Is(err, context.Canceled)]: walk the Unwrap chain. *)
Fixpoint errors_Is_Canceled (err : error) : bool :=
  match err with
  | context_Canceled => true
  | errors_New _ => false
  | fmt_Errorf_w _ w => errors_Is_Canceled w
  | status_error _ => false
  | foreign_error _ c => c
  end.


(** [Status.Err()] on a status pointer: nil for a nil status and for code
    OK, otherwise the immutable error carrying the status. *)
Definition Status_Err (s : option Status) : option error :=
  match s with
  | None => None
  | Some st =>
      if N.eqb (status_code st) codes.OK then None else Some (status_error st)
  end.

(** [status.Error(c, msg)] is [status.New(c, msg).Err()]. *)
Definition status_Error (c : Code) (msg : string) : option error :=
  Status_Err (Some (status_New c msg)).

(** The code and message a client reads off a returned error that is nil or
    a status error ([status.Convert]): nil is OK with an empty message. *)
Definition wire_status (e : option error) : option Status :=
  match e with
  | None => Some (status_New codes.OK "")
  | Some (status_error s) => Some s
  | Some _ => None
  end.

(* ------------------------------------------------------------------ *)
(** ** Time and contexts *)

(** [time.Duration]: nanoseconds. *)
Definition Duration : Type := Z.
Definition time_Second : Duration := 1000000000.

(** The values the embedding leaves abstract: [Any] is a Go [interface{}]
    value (request, response, panic payload); [CallContext] is what the RPC
    runtime puts behind the [context.Context] of an incoming call; [World]
    is everything the collaborators can read or change (application state,
    the clock, the network). *)
Class Values : Type := {
  Any : Type;
  CallContext : Type;
  World : Type;
  Listener : Type;       (* a non-nil net.Listener *)
  Exporter : Type;       (* a stackdriver trace exporter *)
  OtherOption : Type     (* a grpc.ServerOption the caller passes in *)
}.

Section Model.
Context {V : Values}.

(** [context.Context].  A context is either the background context, a
    context derived from a parent with a timeout, or the context of an
    incoming call. *)
Inductive Context : Type :=
| context_Background
| context_WithTimeout (parent : Context) (timeout : Duration)
| context_incoming (c : CallContext).

(** The root a context is derived from. *)
Fixpoint context_root (ctx : Context) : Context :=
  match ctx with
  | context_WithTimeout parent _ => context_root parent
  | _ => ctx
  end.

(** [zap.Field]. *)
Inductive Field : Type :=
| zap_String (key val : string)
| zap_Any (key : string) (val : Any)
| zap_Error (err : error)
| zap_Duration (key : string) (d : Duration).

Definition field_key (f : Field) : string :=
  match f with
  | zap_String k _ => k
  | zap_Any k _ => k
  | zap_Error _ => "error"
  | zap_Duration k _ => k
  end.

(** One call made on a collaborator. *)
Inductive Event : Type :=
| EvLogError (e : error)                       (* ErrorHandler.LogError *)
| EvIsApplicationError (e : error)             (* ErrorHandler.IsApplicationError *)
| EvReportError (ctx : Context) (e : error)    (* ErrorHandler.ReportError *)
| EvErrorToGRPCStatus (e : error)              (* ErrorHandler.ErrorToGRPCStatus *)
| EvLogPanic (p : Any)                         (* PanicHandler.LogPanic *)
| EvReportPanic (ctx : Context) (p : Any)      (* PanicHandler.ReportPanic *)
| EvPanicLogError (e : error)                  (* PanicHandler.LogError *)
| EvDebug (msg : string) (fields : list Field) (* debugLogger.Debug *)
| EvListen (network address : string)          (* net.Listen *)
| EvNewExporter (projectID : string)           (* stackdriver.NewExporter *)
| EvRegisterExporter (x : Exporter)            (* trace.RegisterExporter *)
| EvApplyAlwaysSample                          (* trace.ApplyConfig *)
| EvReflectionRegister                         (* reflection.Register *)
| EvRegisterServer.                            (* the registerServer callback *)

(** How a Go call ends: it returns, or it panics with a value. *)
Inductive Outcome (A : Type) : Type :=
| Returned (a : A)
| Panicked (p : Any).
Arguments Returned {A} a.
Arguments Panicked {A} p.

(** Computations: from a world to an outcome, the world left behind and the
    collaborator calls made, in order. *)
Definition M (A : Type) : Type := World -> Outcome A * World * list Event.

Definition ret {A : Type} (a : A) : M A := fun w => (Returned a, w, []).

Definition bind {A B : Type} (m : M A) (k : A -> M B) : M B :=
  fun w =>
    match m w with
    | (Returned a, w1, ev1) =>
        match k a w1 with
        | (o, w2, ev2) => (o, w2, (ev1 ++ ev2)%list)
        end
    | (Panicked p, w1, ev1) => (Panicked p, w1, ev1)
    end.

(** A collaborator method: a total function on the world, recorded as one
    event. *)
Definition call {A : Type} (ev : Event) (f : World -> A * World) : M A :=
  fun w => let (a, w') := f w in (Returned a, w', [ev]).

Definition outcome {A : Type} (r : Outcome A * World * list Event) : Outcome A :=
  fst (fst r).
Definition world_after {A : Type} (r : Outcome A * World * list Event) : World :=
  snd (fst r).
Definition events {A : Type} (r : Outcome A * World * list Event) : list Event :=
  snd r.

End Model.

Arguments Returned {V A} a.
Arguments Panicked {V A} p.

Declare Scope go_scope.
Delimit Scope go_scope with go.
Notation "x <- c1 ;; c2" := (bind c1 (fun x => c2))
  (at level 61, c1 at next level, right associativity) : go_scope.
Notation "' pat <- c1 ;; c2" :=
  (bind c1 (fun x => match x with pat => c2 end))
  (at level 61, pat pattern, c1 at next level, right associativity) : go_scope.
Notation "c1 ;; c2" := (bind c1 (fun _ => c2))
  (at level 61, right associativity) : go_scope.
Local Open Scope go_scope.

(* ------------------------------------------------------------------ *)
(** ** The environment: library and runtime functions *)

(** What the package calls outside itself.  [GetRequestIDFromCtx] belongs to
    the repository's [grpcutils] package; the others are Go's standard
    library, grpc-go and the tracing libraries. *)
Class Runtime {V : Values} : Type := {
  (* the monotonic clock reading, in nanoseconds, that time.Now records *)
  clock : World -> Z;
  (* grpcutils.GetRequestIDFromCtx *)
  GetRequestIDFromCtx : Context -> string * option error;
  (* status.Code *)
  status_Code : option error -> Code;
  (* the escaping strconv.Quote applies between the two quote marks *)
  strconv_escape : string -> string;
  (* the %q verb on a value that is not known to be a string *)
  fmt_q_any : Any -> string;
  (* net.SplitHostPort *)
  net_SplitHostPort : string -> (string * string) + error;
  (* strconv.Atoi *)
  strconv_Atoi : string -> Z + error;
  (* net.Listen *)
  net_Listen : string -> string -> World -> (Listener + error) * World;
  (* os.Getenv *)
  os_Getenv : string -> World -> string;
  (* stackdriver.NewExporter, given the project id *)
  stackdriver_NewExporter : string -> World -> (Exporter + error) * World
}.

(** ** Capabilities supplied by the embedding application *)

Module ErrorHandler.
Record t {V : Values} : Type := Build {
  LogError : error -> World -> World;
  IsApplicationError : error -> World -> bool * World;
  ReportError : Context -> error -> World -> option error * World;
  ErrorToGRPCStatus : error -> World -> (option Status * option error) * World
}.
End ErrorHandler.

Module PanicHandler.
Record t {V : Values} : Type := Build {
  ReportPanic : Context -> Any -> World -> option error * World;
  LogPanic : Any -> World -> World;
  LogError : error -> World -> World
}.
End PanicHandler.

Module debugLogger.
Record t {V : Values} : Type := Build {
  Debug : string -> list Field -> World -> World
}.
End debugLogger.

Section Program.
Context {V : Values} {RT : Runtime}.

(** The [%q] verb on a string: [strconv.Quote], the escaped text between
    two double quotes. *)
Definition fmt_q (s : string) : string :=
  Str.dquote ++ strconv_escape s ++ Str.dquote.

(** [time.Duration] is an [int64]; [Time.Sub] saturates. *)
Definition time_Sub (t u : Z) : Duration :=
  Z.max int_min (Z.min int_max (t - u)).
Definition time_Now : M Z := fun w => (Returned (clock w), w, []).
Definition time_Since (start : Z) : M Duration :=
  fun w => (Returned (time_Sub (clock w) start), w, []).

(** [ctx, cancel := context.WithTimeout(parent, d); defer cancel()] around a
    body.  The deferred cancel releases the timer; it calls no collaborator. *)
Definition withTimeout {A : Type} (parent : Context) (d : Duration)
    (body : Context -> M A) : M A :=
  body (context_WithTimeout parent d).

(** [grpc.UnaryServerInfo], [grpc.UnaryHandler] and
    [grpc.UnaryServerInterceptor].  A response is [None] when it is nil. *)
Record UnaryServerInfo : Type := mkInfo {
  Server : Any;
  FullMethod : string
}.
Definition UnaryHandler : Type :=
  Context -> Any -> M (option Any * option error).
Definition UnaryServerInterceptor : Type :=
  Context -> Any -> UnaryServerInfo -> UnaryHandler ->
  M (option Any * option error).

(** *** Capability calls, each recorded as an event *)

Definition eh_LogError (h : ErrorHandler.t) (e : error) : M unit :=
  call (EvLogError e) (fun w => (tt, ErrorHandler.LogError h e w)).
Definition eh_IsApplicationError (h : ErrorHandler.t) (e : error) : M bool :=
  call (EvIsApplicationError e) (ErrorHandler.IsApplicationError h e).
Definition eh_ReportError (h : ErrorHandler.t) (ctx : Context) (e : error)
  : M (option error) :=
  call (EvReportError ctx e) (ErrorHandler.ReportError h ctx e).
Definition eh_ErrorToGRPCStatus (h : ErrorHandler.t) (e : error)
  : M (option Status * option error) :=
  call (EvErrorToGRPCStatus e) (ErrorHandler.ErrorToGRPCStatus h e).

Definition ph_LogPanic (h : PanicHandler.t) (p : Any) : M unit :=
  call (EvLogPanic p) (fun w => (tt, PanicHandler.LogPanic h p w)).
Definition ph_ReportPanic (h : PanicHandler.t) (ctx : Context) (p : Any)
  : M (option error) :=
  call (EvReportPanic ctx p) (PanicHandler.ReportPanic h ctx p).
Definition ph_LogError (h : PanicHandler.t) (e : error) : M unit :=
  call (EvPanicLogError e) (fun w => (tt, PanicHandler.LogError h e w)).

Definition logger_Debug (l : debugLogger.t) (msg : string)
    (fields : list Field) : M unit :=
  call (EvDebug msg fields) (fun w => (tt, debugLogger.Debug l msg fields w)).

Definition net_Listen_call (network address : string)
  : M (Listener + error) :=
  call (EvListen network address) (net_Listen network address).

(* ------------------------------------------------------------------ *)
(** ** Error classifier *)

Definition internal_error_message : string := "internal error.".

(** [handleErr]: the raw error is logged, a cancellation ends the call
    without error, and otherwise the switch chooses the status to return. *)
Definition handleErr (targetErr : error) (errorHandler : ErrorHandler.t)
  : M (option error) :=
  let timeout := time_Second in
  withTimeout context_Background timeout (fun ctx =>
    eh_LogError errorHandler targetErr ;;
    if errors_Is_Canceled targetErr then ret None
    else
      grpcStatus <- (
        isApplicationError <- eh_IsApplicationError errorHandler targetErr ;;
        if isApplicationError then
          ' (sts, toGrpcStatusErr) <-
              eh_ErrorToGRPCStatus errorHandler targetErr ;;
          match toGrpcStatusErr with
          | None => ret sts
          | Some convErr =>
              let grpcStatus :=
                Some (status_New codes.Internal internal_error_message) in
              let toGrpcStatusErr :=
                fmt_Errorf_w "error to grpc status: " convErr in
              eh_LogError errorHandler toGrpcStatusErr ;;
              reportErrErr <-
                eh_ReportError errorHandler ctx toGrpcStatusErr ;;
              match reportErrErr with
              | None => ret grpcStatus
              | Some reportErrErr =>
                  eh_LogError errorHandler
                    (fmt_Errorf_w
                       ("error while reporting this error "
                          ++ fmt_q (Error toGrpcStatusErr) ++ ": ")
                       reportErrErr) ;;
                  ret grpcStatus
              end
          end
        else if errors_Is_Canceled targetErr then
          ret (Some (status_New codes.Internal "context cancelled."))
        else
          reportErr <- eh_ReportError errorHandler ctx targetErr ;;
          match reportErr with
          | Some reportErr =>
              eh_LogError errorHandler
                (fmt_Errorf_w
                   ("error while reporting this error "
                      ++ fmt_q (Error targetErr) ++ ": ")
                   reportErr)
          | None => ret tt
          end ;;
          ret (Some (status_New codes.Internal internal_error_message))) ;;
      ret (Status_Err grpcStatus)).

(** [handleErr] with the second cancellation case of the switch deleted. *)
Definition handleErr_without_second_cancel_case
    (targetErr : error) (errorHandler : ErrorHandler.t) : M (option error) :=
  let timeout := time_Second in
  withTimeout context_Background timeout (fun ctx =>
    eh_LogError errorHandler targetErr ;;
    if errors_Is_Canceled targetErr then ret None
    else
      grpcStatus <- (
        isApplicationError <- eh_IsApplicationError errorHandler targetErr ;;
        if isApplicationError then
          ' (sts, toGrpcStatusErr) <-
              eh_ErrorToGRPCStatus errorHandler targetErr ;;
          match toGrpcStatusErr with
          | None => ret sts
          | Some convErr =>
              let grpcStatus :=
                Some (status_New codes.Internal internal_error_message) in
              let toGrpcStatusErr :=
                fmt_Errorf_w "error to grpc status: " convErr in
              eh_LogError errorHandler toGrpcStatusErr ;;
              reportErrErr <-
                eh_ReportError errorHandler ctx toGrpcStatusErr ;;
              match reportErrErr with
              | None => ret grpcStatus
              | Some reportErrErr =>
                  eh_LogError errorHandler
                    (fmt_Errorf_w
                       ("error while reporting this error "
                          ++ fmt_q (Error toGrpcStatusErr) ++ ": ")
                       reportErrErr) ;;
                  ret grpcStatus
              end
          end
        else
          reportErr <- eh_ReportError errorHandler ctx targetErr ;;
          match reportErr with
          | Some reportErr =>
              eh_LogError errorHandler
                (fmt_Errorf_w
                   ("error while reporting this error "
                      ++ fmt_q (Error targetErr) ++ ": ")
                   reportErr)
          | None => ret tt
          end ;;
          ret (Some (status_New codes.Internal internal_error_message))) ;;
      ret (Status_Err grpcStatus)).

(** The error the classifier interceptor hands to [handleErr]:
    [fmt.Errorf("%q: %w", path.Base(info.FullMethod), err)]. *)
Definition method_prefixed (fullMethod : string) (err : error) : error :=
  fmt_Errorf_w (fmt_q (path_Base fullMethod) ++ ": ") err.

(** The interceptor that [prependErrorHandler] builds. *)
Definition errorHandlerInterceptor (errorHandler : ErrorHandler.t)
  : UnaryServerInterceptor :=
  fun ctx req info handler =>
    ' (resp, err) <- handler ctx req ;;
    match err with
    | Some err =>
        masked <- handleErr (method_prefixed (FullMethod info) err)
                    errorHandler ;;
        ret (None, masked)
    | None => ret (resp, None)
    end.

(* ------------------------------------------------------------------ *)
(** ** Panic recovery *)

(** [newRecoveryFunc]. *)
Definition newRecoveryFunc (panicHandler : PanicHandler.t)
  : Any -> M (option error) :=
  fun p =>
    withTimeout context_Background time_Second (fun ctx =>
      ph_LogPanic panicHandler p ;;
      reportPanicErr <- ph_ReportPanic panicHandler ctx p ;;
      match reportPanicErr with
      | Some reportPanicErr =>
          ph_LogError panicHandler
            (fmt_Errorf_w
               ("error while reporting panic " ++ fmt_q_any p ++ ": ")
               reportPanicErr)
      | None => ret tt
      end ;;
      ret (status_Error codes.Internal internal_error_message)).

(** go-grpc-middleware's [grpc_recovery.UnaryServerInterceptor] with
    [WithRecoveryHandler(f)]: the downstream result passes through; a panic
    of the downstream is recovered and the call returns a nil response with
    the error [f] gives for the panic value. *)
Definition grpc_recovery_UnaryServerInterceptor
    (recoveryHandler : Any -> M (option error)) : UnaryServerInterceptor :=
  fun ctx req info handler w =>
    match handler ctx req w with
    | (Returned r, w1, ev1) => (Returned r, w1, ev1)
    | (Panicked p, w1, ev1) =>
        match recoveryHandler p w1 with
        | (Returned err, w2, ev2) =>
            (Returned (None, err), w2, (ev1 ++ ev2)%list)
        | (Panicked q, w2, ev2) => (Panicked q, w2, (ev1 ++ ev2)%list)
        end
    end.

(** go-grpc-middleware's [ChainUnaryServer], which
    [WithUnaryServerChain] installs: the first interceptor of the list is
    the outermost, each one's handler runs the rest of the list, and the
    last one's handler is the service handler. *)
Fixpoint grpc_middleware_ChainUnaryServer
    (interceptors : list UnaryServerInterceptor) : UnaryServerInterceptor :=
  fun ctx req info handler =>
    match interceptors with
    | [] => handler ctx req
    | outer :: inner =>
        outer ctx req info
          (fun ctx' req' =>
             grpc_middleware_ChainUnaryServer inner ctx' req' info handler)
    end.

(* ------------------------------------------------------------------ *)
(** ** Debug logging *)

Definition nil_request_id : string := "00000000-0000-0000-0000-000000000000".

(** The interceptor that [prependDebugInterceptor] builds. *)
Definition debugInterceptor (logger : debugLogger.t) : UnaryServerInterceptor :=
  fun ctx req info handler =>
    start <- time_Now ;;
    let method := path_Base (FullMethod info) in
    if String.eqb method "Check" || String.eqb method "Watch" then
      handler ctx req
    else
      let (requestID, err) := GetRequestIDFromCtx ctx in
      let requestID :=
        match err with
        | Some _ => nil_request_id
        | None => requestID
        end in
      logger_Debug logger "request started"
        [zap_String "trace_id" requestID; zap_String "method" method] ;;
      ' (request, err) <- handler ctx req ;;
      let code := status_Code err in
      match err with
      | Some e =>
          duration <- time_Since start ;;
          logger_Debug logger "request completed with error"
            [zap_String "trace_id" requestID;
             zap_String "method" method;
             zap_Any "request" req;
             zap_Error e;
             zap_String "code" (codes.String code);
             zap_Duration "duration" duration] ;;
          ret (request, err)
      | None =>
          duration <- time_Since start ;;
          logger_Debug logger "request completed successfully"
            [zap_String "trace_id" requestID;
             zap_String "method" method;
             zap_String "code" (codes.String code);
             zap_Duration "duration" duration] ;;
          ret (request, err)
      end.

(* ------------------------------------------------------------------ *)
(** ** Assembling the chain *)

(** Modelled from the spec: [prependServerOption], which the three
    [prepend...] functions call and whose declaration is missing from the
    sources.  The spec says the capability interceptors are added by
    prepending, each later prepend becoming the new outermost layer: the
    new element goes in front of the list, whose elements keep their
    order. *)
Definition prependServerOption {T : Type} (option : T) (options : list T)
  : list T :=
  option :: options.

(** Modelled from the spec: [isErrorHandlerNil], [isPanicHandlerNil] and
    [isDebugLoggerNil], whose declarations are missing as well.  The spec
    says a capability is present (non-nil) or absent from the
    configuration; an absent one is [None]. *)
Definition isErrorHandlerNil (h : option ErrorHandler.t) : bool :=
  match h with None => true | Some _ => false end.
Definition isPanicHandlerNil (h : option PanicHandler.t) : bool :=
  match h with None => true | Some _ => false end.
Definition isDebugLoggerNil (l : option debugLogger.t) : bool :=
  match l with None => true | Some _ => false end.

Definition prependDebugInterceptor
    (interceptors : list UnaryServerInterceptor) (logger : debugLogger.t)
  : list UnaryServerInterceptor :=
  prependServerOption (debugInterceptor logger) interceptors.

Definition prependPanicHandler
    (interceptors : list UnaryServerInterceptor) (panicHandler : PanicHandler.t)
  : list UnaryServerInterceptor :=
  prependServerOption
    (grpc_recovery_UnaryServerInterceptor (newRecoveryFunc panicHandler))
    interceptors.

Definition prependErrorHandler
    (interceptors : list UnaryServerInterceptor) (errorHandler : ErrorHandler.t)
  : list UnaryServerInterceptor :=
  prependServerOption (errorHandlerInterceptor errorHandler) interceptors.

(** The three guarded reassignments of [unaryServerInterceptors] in
    [newGRPCServerWithListener], in the order they are written.  A
    capability that passed its guard is used as the non-nil value it is. *)
Definition newGRPCServerWithListener_interceptors
    (unaryServerInterceptors : list UnaryServerInterceptor)
    (debugLogger : option debugLogger.t)
    (errorHandler : option ErrorHandler.t)
    (panicHandler : option PanicHandler.t)
  : list UnaryServerInterceptor :=
  let unaryServerInterceptors :=
    if negb (isErrorHandlerNil errorHandler) then
      match errorHandler with
      | Some h => prependErrorHandler unaryServerInterceptors h
      | None => unaryServerInterceptors
      end
    else unaryServerInterceptors in
  let unaryServerInterceptors :=
    if negb (isPanicHandlerNil panicHandler) then
      match panicHandler with
      | Some h => prependPanicHandler unaryServerInterceptors h
      | None => unaryServerInterceptors
      end
    else unaryServerInterceptors in
  let unaryServerInterceptors :=
    if negb (isDebugLoggerNil debugLogger) then
      match debugLogger with
      | Some l => prependDebugInterceptor unaryServerInterceptors l
      | None => unaryServerInterceptors
      end
    else unaryServerInterceptors in
  unaryServerInterceptors.

(* ------------------------------------------------------------------ *)
(** ** Listener, tracing and the server *)

(** [newGRPCListener]. *)
Definition newGRPCListener (defaultListener : option Listener) (addr : string)
  : M (option Listener * option error) :=
  match defaultListener with
  | Some l => ret (Some l, None)
  | None =>
      match net_SplitHostPort addr with
      | inr err => ret (None, Some (fmt_Errorf_w "invalid address: " err))
      | inl (hostString, portString) =>
          match strconv_Atoi portString with
          | inr err => ret (None, Some (fmt_Errorf_w "parse port: " err))
          | inl port =>
              bound <- net_Listen_call "tcp"
                         (hostString ++ ":" ++ fmt_d (int_sub port 1)) ;;
              match bound with
              | inr err =>
                  ret (None, Some (fmt_Errorf_w "new net listener: " err))
              | inl listener => ret (Some listener, None)
              end
          end
      end
  end.

(** [grpc.ServerOption], as far as the package builds them itself. *)
Inductive ServerOption : Type :=
| other_option (o : OtherOption)
| grpc_StatsHandler_ocgrpc
| grpc_middleware_WithUnaryServerChain
    (interceptors : list UnaryServerInterceptor).

(** [setGRPCTracing]. *)
Definition setGRPCTracing (tracing : bool) (serverOptions : list ServerOption)
  : M (list ServerOption * option error) :=
  if negb tracing then ret (serverOptions, None)
  else
    made <- (fun w =>
               let projectID := os_Getenv "GOOGLE_CLOUD_PROJECT" w in
               call (EvNewExporter projectID)
                 (stackdriver_NewExporter projectID) w) ;;
    match made with
    | inr err => ret ([], Some (fmt_Errorf_w "new exporter: " err))
    | inl exporter =>
        call (EvRegisterExporter exporter) (fun w => (tt, w)) ;;
        call EvApplyAlwaysSample (fun w => (tt, w)) ;;
        ret ((serverOptions ++ [grpc_StatsHandler_ocgrpc])%list, None)
    end.

(** [grpc.Server] as built by [grpc.NewServer(opts...)]. *)
Record grpc_Server : Type := grpc_NewServer {
  server_options : list ServerOption
}.
Record grpcServer : Type := mk_grpcServer {
  internalGRPCServer : grpc_Server
}.
Record serverWithListener : Type := mk_serverWithListener {
  server : grpcServer;
  listener : option Listener
}.

(** [registerServerFunc]: nil, or a callback that attaches the services. *)
Definition registerServerFunc : Type := option (grpc_Server -> World -> World).

(** [newGRPCServerWithListener]. *)
Definition newGRPCServerWithListener
    (listener : option Listener) (address : string) (tracing : bool)
    (defaultGRPCServerOptions : list ServerOption)
    (unaryServerInterceptors : list UnaryServerInterceptor)
    (registerServer : registerServerFunc)
    (debugLogger : option debugLogger.t)
    (errorHandler : option ErrorHandler.t)
    (panicHandler : option PanicHandler.t)
  : M (option serverWithListener * option error) :=
  ' (grpcListener, err) <- newGRPCListener listener address ;;
  match err with
  | Some err => ret (None, Some (fmt_Errorf_w "new grpc listener: " err))
  | None =>
      ' (grpcServerOptions, err) <-
          setGRPCTracing tracing defaultGRPCServerOptions ;;
      match err with
      | Some err =>
          ret (None, Some (fmt_Errorf_w "set grpc tracing tracing: " err))
      | None =>
          let unaryServerInterceptors :=
            newGRPCServerWithListener_interceptors unaryServerInterceptors
              debugLogger errorHandler panicHandler in
          let grpcServerOptions :=
            if (0 <? length unaryServerInterceptors)%nat
            then (grpcServerOptions ++
                    [grpc_middleware_WithUnaryServerChain
                       unaryServerInterceptors])%list
            else grpcServerOptions in
          let internalGRPCServer := grpc_NewServer grpcServerOptions in
          call EvReflectionRegister (fun w => (tt, w)) ;;
          match registerServer with
          | Some register =>
              call EvRegisterServer
                (fun w => (tt, register internalGRPCServer w))
          | None => ret tt
          end ;;
          ret (Some (mk_serverWithListener
                       (mk_grpcServer internalGRPCServer) grpcListener),
               None)
      end
  end.

End Program.

Arguments UnaryServerInfo {V}.
Arguments mkInfo {V} Server FullMethod.

(* ------------------------------------------------------------------ *)
(** ** Measures on event traces *)

Section Traces.
Context {V : Values}.


Definition is_ReportError (ev : Event) : bool :=
  match ev with
  | EvReportError _ _ => true
  | _ => false
  end.

Definition is_LogPanic (ev : Event) : bool :=
  match ev with
  | EvLogPanic _ => true
  | _ => false
  end.

Definition is_ReportPanic (ev : Event) : bool :=
  match ev with
  | EvReportPanic _ _ => true
  | _ => false
  end.

Definition is_Debug (ev : Event) : bool :=
  match ev with
  | EvDebug _ _ => true
  | _ => false
  end.

Definition is_Listen (ev : Event) : bool :=
  match ev with
  | EvListen _ _ => true
  | _ => false
  end.

Definition count (p : Event -> bool) (evs : list Event) : nat :=
  length (filter p evs).

(** A context that does not descend from the context of any call: its
    deadline cannot be moved by a client cancelling. *)
Definition detached (ctx : Context) : Prop :=
  context_root ctx = context_Background.

(** The context both side channels report under. *)
Definition report_ctx : Context :=
  context_WithTimeout context_Background time_Second.

End Traces.

(* ------------------------------------------------------------------ *)
(** ** Vocabulary of the statements *)

Section Vocabulary.
Context {V : Values} {RT : Runtime}.

(** The layer a capability contributes to the chain: one interceptor when
    it is present, nothing when it is absent. *)
Definition optional_layer {A : Type} (mk : A -> UnaryServerInterceptor)
    (capability : option A) : list UnaryServerInterceptor :=
  match capability with
  | Some c => [mk c]
  | None => []
  end.

Definition optional_prepend {A : Type} (mk : A -> UnaryServerInterceptor)
    (capability : option A) (interceptors : list UnaryServerInterceptor)
  : list UnaryServerInterceptor :=
  match capability with
  | Some c => prependServerOption (mk c) interceptors
  | None => interceptors
  end.

Definition present {A : Type} (capability : option A) : nat :=
  match capability with
  | Some _ => 1%nat
  | None => O
  end.

Definition panicInterceptor (h : PanicHandler.t) : UnaryServerInterceptor :=
  grpc_recovery_UnaryServerInterceptor (newRecoveryFunc h).

(** The masked status, Internal / "internal error.", and the status of the
    second cancellation case of the switch in [handleErr]. *)
Definition internal_status : Status :=
  status_New codes.Internal "internal error.".
Definition context_cancelled_status : Status :=
  status_New codes.Internal "context cancelled.".

(** The error logged when reporting [reported] failed with [reportErr]. *)
Definition reporting_failure (reported reportErr : error) : error :=
  fmt_Errorf_w
    ("error while reporting this error " ++ fmt_q (Error reported) ++ ": ")
    reportErr.

(** The error logged when reporting the panic [p] failed. *)
Definition panic_reporting_failure (p : Any) (reportPanicErr : error) : error :=
  fmt_Errorf_w ("error while reporting panic " ++ fmt_q_any p ++ ": ")
    reportPanicErr.

(** The conversion failure as [handleErr] logs and reports it. *)
Definition conversion_failure (convErr : error) : error :=
  fmt_Errorf_w "error to grpc status: " convErr.

(** The request id the debug interceptor logs. *)
Definition resolved_request_id (ctx : Context) : string :=
  match snd (GetRequestIDFromCtx ctx) with
  | Some _ => nil_request_id
  | None => fst (GetRequestIDFromCtx ctx)
  end.

Definition is_probe (method : string) : bool :=
  String.eqb method "Check" || String.eqb method "Watch".

Definition started_fields (ctx : Context) (info : UnaryServerInfo)
  : list Field :=
  [zap_String "trace_id" (resolved_request_id ctx);
   zap_String "method" (path_Base (FullMethod info))].

Definition completed_message (err : option error) : string :=
  match err with
  | Some _ => "request completed with error"
  | None => "request completed successfully"
  end.

Definition completed_fields (ctx : Context) (req : Any)
    (info : UnaryServerInfo) (err : option error) (d : Duration)
  : list Field :=
  match err with
  | Some e =>
      [zap_String "trace_id" (resolved_request_id ctx);
       zap_String "method" (path_Base (FullMethod info));
       zap_Any "request" req;
       zap_Error e;
       zap_String "code" (codes.String (status_Code err));
       zap_Duration "duration" d]
  | None =>
      [zap_String "trace_id" (resolved_request_id ctx);
       zap_String "method" (path_Base (FullMethod info));
       zap_String "code" (codes.String (status_Code err));
       zap_Duration "duration" d]
  end.

(** The world in which the debug interceptor calls the downstream handler. *)
Definition world_at_downstream (logger : debugLogger.t) (ctx : Context)
    (info : UnaryServerInfo) (w : World) : World :=
  if is_probe (path_Base (FullMethod info)) then w
  else debugLogger.Debug logger "request started" (started_fields ctx info) w.

Definition is_tcp_port (n : Z) : Prop := 0 <= n <= 65535.

End Vocabulary.

(* ------------------------------------------------------------------ *)
(** ** A concrete environment to run the model in *)

Module Sample.

(** Payloads are strings, the context of a call carries its request id (if
    any), the world is the clock reading, a listener is the address it is
    bound to. *)
#[export] Instance values : Values := {|
  Any := string;
  CallContext := option string;
  World := Z;
  Listener := string;
  Exporter := unit;
  OtherOption := nat
|}.

Fixpoint index_byte (c : ascii) (s : string) : option nat :=
  match s with
  | EmptyString => None
  | String d s' =>
      if Ascii.eqb c d then Some O
      else option_map S (index_byte c s')
  end.

Fixpoint last_index_byte (c : ascii) (s : string) : option nat :=
  match s with
  | EmptyString => None
  | String d s' =>
      match last_index_byte c s' with
      | Some i => Some (S i)
      | None => if Ascii.eqb c d then Some O else None
      end
  end.

Definition drop (n : nat) (s : string) : string :=
  String.substring n (String.length s - n) s.

Definition addrErr (addr why : string) : (string * string) + error :=
  inr (foreign_error ("address " ++ addr ++ ": " ++ why) false).

(** [net.SplitHostPort], after the Go standard library. *)
Definition SplitHostPort (hostport : string) : (string * string) + error :=
  let missingPort := "missing port in address" in
  let tooManyColons := "too many colons in address" in
  match last_index_byte ":" hostport with
  | None => addrErr hostport missingPort
  | Some i =>
      let bracketed :=
        match hostport with
        | String "[" _ =>
            match index_byte "]" hostport with
            | None => inr (addrErr hostport "missing ']' in address")
            | Some e =>
                if Nat.eqb (e + 1) (String.length hostport) then
                  inr (addrErr hostport missingPort)
                else if Nat.eqb (e + 1) i then
                  inl (String.substring 1 (e - 1) hostport, 1%nat, (e + 1)%nat)
                else
                  match String.get (e + 1) hostport with
                  | Some ":"%char => inr (addrErr hostport tooManyColons)
                  | _ => inr (addrErr hostport missingPort)
                  end
            end
        | _ =>
            let host := String.substring 0 i hostport in
            match index_byte ":" host with
            | Some _ => inr (addrErr hostport tooManyColons)
            | None => inl (host, O, O)
            end
        end in
      match bracketed with
      | inr failure => failure
      | inl (host, j, k) =>
          match index_byte "[" (drop j hostport) with
          | Some _ => addrErr hostport "unexpected '[' in address"
          | None =>
              match index_byte "]" (drop k hostport) with
              | Some _ => addrErr hostport "unexpected ']' in address"
              | None => inl (host, drop (i + 1) hostport)
              end
          end
      end
  end.

Definition digit (c : ascii) : option Z :=
  let n := Z.of_nat (nat_of_ascii c) in
  if (48 <=? n) && (n <=? 57) then Some (n - 48) else None.

Fixpoint digits (acc : Z) (s : string) : option Z :=
  match s with
  | EmptyString => Some acc
  | String c s' =>
      match digit c with
      | Some d => digits (acc * 10 + d) s'
      | None => None
      end
  end.

Definition numError (s why : string) : Z + error :=
  inr (foreign_error
         ("strconv.Atoi: parsing " ++ Str.dquote ++ s ++ Str.dquote
            ++ ": " ++ why) false).

(** [strconv.Atoi], after the Go standard library: an optional sign, then
    one or more decimal digits, the value within the range of [int]. *)
Definition Atoi (s : string) : Z + error :=
  let '(negative, body) :=
    match s with
    | String "-" r => (true, r)
    | String "+" r => (false, r)
    | _ => (false, s)
    end in
  match body with
  | EmptyString => numError s "invalid syntax"
  | _ =>
      match digits 0 body with
      | None => numError s "invalid syntax"
      | Some n =>
          let v := if negative then - n else n in
          if (int_min <=? v) && (v <=? int_max) then inl v
          else numError s "value out of range"
      end
  end.

#[export] Instance runtime : Runtime := {|
  clock := fun w => w;
  GetRequestIDFromCtx := fun ctx =>
    match ctx with
    | context_incoming (Some id) => (id, None)
    | _ => ("", Some (errors_New "request id not found"))
    end;
  status_Code := fun e =>
    match e with
    | None => codes.OK
    | Some (status_error s) => status_code s
    | Some _ => codes.Unknown
    end;
  strconv_escape := fun s => s;
  fmt_q_any := fun p => Str.dquote ++ p ++ Str.dquote;
  net_SplitHostPort := SplitHostPort;
  strconv_Atoi := Atoi;
  net_Listen := fun _ address w => (inl address, w + 1);
  os_Getenv := fun _ _ => "sample-project";
  stackdriver_NewExporter := fun _ w => (inl tt, w + 1)
|}.

(** An error handler with fixed answers; every call takes one tick. *)
Definition errorHandler (isApplication : bool)
    (converted : option Status * option error) (reported : option error)
  : ErrorHandler.t := {|
  ErrorHandler.LogError := fun _ w => w + 1;
  ErrorHandler.IsApplicationError := fun _ w => (isApplication, w + 1);
  ErrorHandler.ReportError := fun _ _ w => (reported, w + 1);
  ErrorHandler.ErrorToGRPCStatus := fun _ w => (converted, w + 1)
|}.

Definition panicHandler (reported : option error) : PanicHandler.t := {|
  PanicHandler.ReportPanic := fun _ _ w => (reported, w + 1);
  PanicHandler.LogPanic := fun _ w => w + 1;
  PanicHandler.LogError := fun _ w => w + 1
|}.

Definition logger : debugLogger.t := {|
  debugLogger.Debug := fun _ _ w => w + 1
|}.

(** A handler that takes [took] nanoseconds and returns what it is given. *)
Definition handler (took : Z) (result : option string * option error)
  : UnaryHandler :=
  fun _ _ w => (Returned result, w + took, []).

(** A handler that panics with [p]. *)
Definition panicking (p : string) : UnaryHandler :=
  fun _ _ w => (Panicked p, w, []).

Definition info (fullMethod : string) : UnaryServerInfo :=
  mkInfo "service" fullMethod.

(** The context of a call without a request id, and of one with. *)
Definition anonymous : Context := context_incoming None.
Definition identified (id : string) : Context := context_incoming (Some id).

(** A string as an [interface{}] value. *)
Definition payload (s : string) : Any := s.

Definition not_found : error := foreign_error "not found" false.
Definition user_not_found : Status :=
  status_New codes.NotFound "user not found".

(** The error of a failed /svc.Users/Get call as the classifier sees it. *)
Definition get_failed : error := method_prefixed "/svc.Users/Get" not_found.

(** An application whose conversion answers Internal / "context cancelled."
    for an error that is no cancellation. *)
Definition echoing_handler : ErrorHandler.t :=
  errorHandler true (Some (status_New codes.Internal "context cancelled."), None)
    None.

(** An application whose conversion answers with an OK status. *)
Definition ok_converting_handler : ErrorHandler.t :=
  errorHandler true (Some (status_New codes.OK "done"), None) None.

End Sample.

(* ------------------------------------------------------------------ *)
(** ** Further measures on traces of the gRPC package *)

Section MoreTraces.
Context {V : Values}.

(** A call on the [ErrorHandler] capability. *)
Definition is_ErrorHandler_call (ev : Event) : bool :=
  match ev with
  | EvLogError _ | EvIsApplicationError _
  | EvReportError _ _ | EvErrorToGRPCStatus _ => true
  | _ => false
  end.

Definition is_NewExporter (ev : Event) : bool :=
  match ev with
  | EvNewExporter _ => true
  | _ => false
  end.

Definition is_RegisterExporter (ev : Event) : bool :=
  match ev with
  | EvRegisterExporter _ => true
  | _ => false
  end.

Definition is_ReflectionRegister (ev : Event) : bool :=
  match ev with
  | EvReflectionRegister => true
  | _ => false
  end.

Definition is_RegisterServer (ev : Event) : bool :=
  match ev with
  | EvRegisterServer => true
  | _ => false
  end.

(** The context a [ReportError] event was made under, for other events the
    report context itself. *)
Definition reported_under (ev : Event) : Context :=
  match ev with
  | EvReportError ctx _ => ctx
  | _ => report_ctx
  end.

End MoreTraces.

(* ================================================================== *)
(** * pubsub/kafka: the Kafka subscriber *)

Module Kafka.

(** [kafka.SubscriberConfig], the fields the package sets. *)
Record SubscriberConfig (SaramaConfig : Type) : Type := mkSubscriberConfig {
  Brokers : list string;
  Unmarshaler : unit;                       (* kafka.DefaultMarshaler{} *)
  OverwriteSaramaConfig : SaramaConfig;
  ConsumerGroup : string
}.
Arguments mkSubscriberConfig {SaramaConfig}.
Arguments Brokers {SaramaConfig}.
Arguments OverwriteSaramaConfig {SaramaConfig}.
Arguments ConsumerGroup {SaramaConfig}.

(** What the subscriber is built on: sarama, watermill-kafka, and three
    declarations of the repository that the file uses and does not contain
    ([pubsub.ErrExactlyOneChannelAllowed], [newLoggerAdapter],
    [newSubscription]). *)
Class Env : Type := {
  World : Type;
  Ctx : Type;                      (* context.Context *)
  context_Background : Ctx;        (* context.Background() *)
  ClusterAdmin : Type;             (* sarama.ClusterAdmin *)
  KafkaSubscriber : Type;          (* *kafka.Subscriber *)
  Messages : Type;                 (* <-chan *message.Message *)
  Subscription : Type;             (* pubsub.Subscription[[]byte] *)
  Logger : Type;                   (* *zap.Logger *)
  LoggerAdapter : Type;            (* watermill.LoggerAdapter *)
  SaramaConfig : Type;             (* *sarama.Config *)
  sarama_NewClusterAdmin :
    list string -> SaramaConfig -> World -> (ClusterAdmin + error) * World;
  kafka_NewSubscriber :
    SubscriberConfig SaramaConfig -> LoggerAdapter -> World ->
    (KafkaSubscriber + error) * World;
  kafka_Subscribe :
    KafkaSubscriber -> Ctx -> string -> World -> (Messages + error) * World;
  kafka_Close : KafkaSubscriber -> World -> option error * World;
  ErrExactlyOneChannelAllowed : error;
  newLoggerAdapter : Logger -> LoggerAdapter;
  newSubscription : Messages -> ClusterAdmin -> Subscription
}.

Section Subscriber.
Context {E : Env}.

(** One call made on sarama or on watermill-kafka. *)
Inductive Event : Type :=
| EvNewClusterAdmin (brokers : list string) (config : SaramaConfig)
| EvNewSubscriber (config : SubscriberConfig SaramaConfig)
    (logger : LoggerAdapter)
| EvSubscribe (sub : KafkaSubscriber) (ctx : Ctx) (topic : string)
| EvClose (sub : KafkaSubscriber).

(** Computations: the result, the world left behind and the calls made. *)
Definition K (A : Type) : Type := World -> A * World * list Event.

Definition kret {A : Type} (a : A) : K A := fun w => (a, w, []).

Definition kbind {A B : Type} (m : K A) (k : A -> K B) : K B :=
  fun w =>
    match m w with
    | (a, w1, ev1) =>
        match k a w1 with
        | (b, w2, ev2) => (b, w2, (ev1 ++ ev2)%list)
        end
    end.

Definition kcall {A : Type} (ev : Event) (f : World -> A * World) : K A :=
  fun w => let (a, w') := f w in (a, w', [ev]).

(** [Subscriber]. *)
Record Subscriber : Type := mkSubscriber {
  kafkaSubscriber : KafkaSubscriber;
  clusterAdmin : ClusterAdmin
}.

(** [NewSubscriber]. *)
Definition NewSubscriber (logger : Logger) (saramaConfig : SaramaConfig)
    (brokers : list string) (consumerGroup : string)
  : K (option Subscriber * option error) :=
  kbind (kcall (EvNewClusterAdmin brokers saramaConfig)
           (sarama_NewClusterAdmin brokers saramaConfig))
    (fun made =>
       match made with
       | inr err => kret (None, Some (fmt_Errorf_w "new sarama client: " err))
       | inl saramaClient =>
           let config :=
             mkSubscriberConfig brokers tt saramaConfig consumerGroup in
           kbind (kcall (EvNewSubscriber config (newLoggerAdapter logger))
                    (kafka_NewSubscriber config (newLoggerAdapter logger)))
             (fun made =>
                match made with
                | inr err =>
                    kret (None,
                          Some (fmt_Errorf_w "new kafka subscriber: " err))
                | inl sub => kret (Some (mkSubscriber sub saramaClient), None)
                end)
       end).

(** [Subscriber.Subscribe]. *)
Definition Subscribe (s : Subscriber) (channels : list string)
  : K (option Subscription * option error) :=
  if negb (Nat.eqb (length channels) 1) then
    kret (None, Some ErrExactlyOneChannelAllowed)
  else
    match channels with
    | [] => kret (None, Some ErrExactlyOneChannelAllowed)
    | channel0 :: _ =>
        kbind (kcall (EvSubscribe (kafkaSubscriber s) context_Background
                        channel0)
                 (kafka_Subscribe (kafkaSubscriber s) context_Background
                    channel0))
          (fun got =>
             match got with
             | inr err => kret (None, Some (fmt_Errorf_w "subscribe: " err))
             | inl mes => kret (Some (newSubscription mes (clusterAdmin s)),
                                None)
             end)
    end.

(** [Subscriber.Close]. *)
Definition Close (s : Subscriber) : K (option error) :=
  kcall (EvClose (kafkaSubscriber s)) (kafka_Close (kafkaSubscriber s)).

Definition is_Subscribe (ev : Event) : bool :=
  match ev with
  | EvSubscribe _ _ _ => true
  | _ => false
  end.

Definition is_NewSubscriber (ev : Event) : bool :=
  match ev with
  | EvNewSubscriber _ _ => true
  | _ => false
  end.

Definition is_NewClusterAdmin (ev : Event) : bool :=
  match ev with
  | EvNewClusterAdmin _ _ => true
  | _ => false
  end.

End Subscriber.

(** A concrete environment: two brokers are reachable, topics that start
    with a dash cannot be subscribed to. *)
Module Sample.

Definition reachable (brokers : list string) : bool :=
  match brokers with
  | [] => false
  | _ => true
  end.

#[export] Instance env : Env := {|
  World := nat;
  Ctx := bool;
  context_Background := true;
  ClusterAdmin := list string;
  KafkaSubscriber := string;
  Messages := string;
  Subscription := string * list string;
  Logger := unit;
  LoggerAdapter := unit;
  SaramaConfig := nat;
  sarama_NewClusterAdmin := fun brokers _ w =>
    (if reachable brokers then inl brokers
     else inr (errors_New "no brokers"), S w);
  kafka_NewSubscriber := fun config _ w =>
    (match ConsumerGroup config with
     | EmptyString => inr (errors_New "no consumer group")
     | group => inl group
     end, S w);
  kafka_Subscribe := fun sub _ topic w =>
    (match topic with
     | String "-" _ => inr (errors_New "invalid topic")
     | _ => inl (sub ++ "/" ++ topic)
     end, S w);
  kafka_Close := fun _ w => (None, S w);
  ErrExactlyOneChannelAllowed := errors_New "exactly one channel is allowed";
  newLoggerAdapter := fun l => l;
  newSubscription := fun mes admin => (mes, admin)
|}.

Definition brokers : list string := ["broker-1:9092"].
Definition logger : Logger := tt.
Definition config : SaramaConfig := 3%nat.
Definition subscriber : Subscriber := mkSubscriber "group-a" brokers.
Definition subscribed (topic : string) : Event :=
  EvSubscribe "group-a" true topic.
Definition closed : Event := EvClose "group-a".
Definition subscription (topic : string) : option Subscription :=
  Some ("group-a/" ++ topic, brokers).
Definition no_subscription : option Subscription := None.
Definition no_subscriber : option Subscriber := None.

End Sample.

End Kafka.

(* ================================================================== *)
(** * http/middleware: the request logger *)

Module HTTPLog.

(** What the middleware takes from outside: the clock and its formatting,
    the conversion of the elapsed time to a float, [%+v], and the logger's
    sink. *)
Class Env : Type := {
  World : Type;
  TLSState : Type;                 (* *tls.ConnectionState, non-nil *)
  Float64 : Type;                  (* float64 *)
  Value : Type;                    (* interface{} *)
  Core : Type;                     (* what a zap.Logger writes to *)
  (* time.Now().UTC().Format(time.RFC1123) *)
  now_RFC1123 : World -> string;
  (* float64(ns) / 1000000.0 *)
  milliseconds : Z -> Float64;
  (* fmt.Sprintf("%+v", v) *)
  fmt_plus_v : Value -> string
}.

Section Logger.
Context {E : Env}.

(** [zapcore.Field], the kinds the middleware creates. *)
Inductive Field : Type :=
| zap_String (key val : string)
| zap_Int (key : string) (val : Z)
| zap_Float64 (key : string) (val : Float64).

Definition key_of (f : Field) : string :=
  match f with
  | zap_String k _ => k
  | zap_Int k _ => k
  | zap_Float64 k _ => k
  end.

(** [zap.Logger]: where it writes and the fields [With] has attached, in
    the order they were attached. *)
Record zap_Logger : Type := mk_zap_Logger {
  core : Core;
  context : list Field
}.

(** [Logger.With]: a child logger with the fields added after the ones it
    has; the parent is not changed. *)
Definition With (l : zap_Logger) (fields : list Field) : zap_Logger :=
  mk_zap_Logger (core l) (context l ++ fields)%list.

(** One [Logger.Info] call: the logger it was made on and the message. *)
Inductive LogRecord : Type :=
| Info (l : zap_Logger) (msg : string).

Definition record_logger (r : LogRecord) : zap_Logger :=
  match r with Info l _ => l end.
Definition record_message (r : LogRecord) : string :=
  match r with Info _ m => m end.

(** [http.Request], as far as the middleware reads it.  [UserAgent] is what
    [r.UserAgent()] returns and [ReqID] what chi's [GetReqID] finds in the
    request's context (empty when there is none). *)
Record Request : Type := mkRequest {
  TLS : option TLSState;
  Proto : string;
  Method : string;
  RemoteAddr : string;
  Host : string;
  RequestURI : string;
  UserAgent : string;
  ReqID : string
}.

Record structuredLogger : Type := mk_structuredLogger {
  Logger : zap_Logger
}.

(** [structuredLoggerEntry].  The Go methods change the entry behind its
    pointer; here they return the entry they leave. *)
Record structuredLoggerEntry : Type := mk_structuredLoggerEntry {
  entry_Logger : zap_Logger
}.

Definition scheme_of (r : Request) : string :=
  match TLS r with
  | Some _ => "https"
  | None => "http"
  end.

(** [structuredLogger.NewLogEntry]: the entry and the records logged. *)
Definition NewLogEntry (l : structuredLogger) (r : Request) (w : World)
  : structuredLoggerEntry * list LogRecord :=
  let entry := mk_structuredLoggerEntry (Logger l) in
  let fields := [zap_String "ts" (now_RFC1123 w)] in
  let fields :=
    let reqID := ReqID r in
    if negb (String.eqb reqID "")
    then (fields ++ [zap_String "req.id" reqID])%list
    else fields in
  let scheme := "http" in
  let scheme :=
    match TLS r with
    | Some _ => "https"
    | None => scheme
    end in
  let fields :=
    (fields ++
     [zap_String "http_scheme" scheme;
      zap_String "http_proto" (Proto r);
      zap_String "http_method" (Method r);
      zap_String "remote_addr" (RemoteAddr r);
      zap_String "user_agent" (UserAgent r);
      zap_String "uri" (scheme ++ "://" ++ Host r ++ RequestURI r)])%list in
  let entry := mk_structuredLoggerEntry (With (Logger l) fields) in
  (entry, [Info (entry_Logger entry) "request started"]).

(** [structuredLoggerEntry.Write]. *)
Definition Write (l : structuredLoggerEntry) (status bytes : Z)
    (elapsed : Duration) : structuredLoggerEntry * list LogRecord :=
  let l :=
    mk_structuredLoggerEntry
      (With (entry_Logger l)
         [zap_Int "status" status;
          zap_Int "bytes_length" bytes;
          zap_Float64 "duration_ms" (milliseconds elapsed)]) in
  (l, [Info (entry_Logger l) "request complete"]).

(** [structuredLoggerEntry.Panic]: [stack] is the stack trace as text. *)
Definition Panic (l : structuredLoggerEntry) (v : Value) (stack : string)
  : structuredLoggerEntry * list LogRecord :=
  (mk_structuredLoggerEntry
     (With (entry_Logger l)
        [zap_String "stack" stack;
         zap_String "panic" (fmt_plus_v v)]),
   []).

(** What chi's request logger may do with an entry after creating it. *)
Inductive EntryCall : Type :=
| CallWrite (status bytes : Z) (elapsed : Duration)
| CallPanic (v : Value) (stack : string).

Definition apply_call (l : structuredLoggerEntry) (c : EntryCall)
  : structuredLoggerEntry * list LogRecord :=
  match c with
  | CallWrite status bytes elapsed => Write l status bytes elapsed
  | CallPanic v stack => Panic l v stack
  end.

(** A sequence of calls on one entry, each on the entry the one before
    left. *)
Fixpoint apply_calls (l : structuredLoggerEntry) (cs : list EntryCall)
  : structuredLoggerEntry * list LogRecord :=
  match cs with
  | [] => (l, [])
  | c :: cs' =>
      let (l1, out1) := apply_call l c in
      let (l2, out2) := apply_calls l1 cs' in
      (l2, (out1 ++ out2)%list)
  end.

Definition is_Write (c : EntryCall) : bool :=
  match c with
  | CallWrite _ _ _ => true
  | CallPanic _ _ => false
  end.

Definition has_key (k : string) (fields : list Field) : bool :=
  existsb (fun f => String.eqb (key_of f) k) fields.

Fixpoint is_prefix (p l : list Field) : Prop :=
  match p, l with
  | [], _ => True
  | x :: p', y :: l' => x = y /\ is_prefix p' l'
  | _ :: _, [] => False
  end.

End Logger.

Module Sample.

#[export] Instance env : Env := {|
  World := Z;
  TLSState := unit;
  Float64 := Z * Z;
  Value := string;
  Core := string;
  now_RFC1123 := fun w => "t" ++ fmt_d w;
  milliseconds := fun ns => (ns, 1000000);
  fmt_plus_v := fun v => v
|}.

Definition base : zap_Logger := mk_zap_Logger "stdout" [zap_String "app" "api"].

Definition get_users : Request :=
  mkRequest (Some tt) "HTTP/1.1" "GET" "10.0.0.7:4242" "api.example.com"
    "/users?page=2" "curl/8.0" "req-42".

Definition plain : Request :=
  mkRequest None "HTTP/1.1" "GET" "10.0.0.7:4242" "api.example.com"
    "/health" "curl/8.0" "".

(** The logger [get_users] is logged with when the clock reads 1700. *)
Definition get_users_logger : zap_Logger :=
  mk_zap_Logger "stdout"
    [zap_String "app" "api";
     zap_String "ts" "t1700";
     zap_String "req.id" "req-42";
     zap_String "http_scheme" "https";
     zap_String "http_proto" "HTTP/1.1";
     zap_String "http_method" "GET";
     zap_String "remote_addr" "10.0.0.7:4242";
     zap_String "user_agent" "curl/8.0";
     zap_String "uri" "https://api.example.com/users?page=2"].

End Sample.

End HTTPLog.

(* ------------------------------------------------------------------ *)
(** ** A second environment for the gRPC package: no trace exporter *)

Module Offline.
Import Sample.

(** As [Sample.runtime], except that no exporter can be created. *)
#[export] Instance runtime : Runtime (V := Sample.values) := {|
  clock := fun w => w;
  GetRequestIDFromCtx := GetRequestIDFromCtx (Runtime := Sample.runtime);
  status_Code := status_Code (Runtime := Sample.runtime);
  strconv_escape := fun s => s;
  fmt_q_any := fmt_q_any (Runtime := Sample.runtime);
  net_SplitHostPort := Sample.SplitHostPort;
  strconv_Atoi := Sample.Atoi;
  net_Listen := fun _ address w => (inl address, w + 1);
  os_Getenv := fun _ _ => "";
  stackdriver_NewExporter := fun _ w =>
    (inr (errors_New "missing project id"), w + 1)
|}.

End Offline.

(** Inputs for concrete runs of the server constructor. *)
Module Cases.
Import Sample.

Definition defaults : list ServerOption := [other_option 7%nat; other_option 9%nat].

(** A registration callback that takes one tick. *)
Definition register : registerServerFunc := Some (fun _ w => w + 1).

Definition supplied : option Listener := Some "unix:/tmp/grpc.sock".

(** A handler that succeeds. *)
Definition ok_handler : UnaryHandler := handler 5 (Some "resp", None).

Definition exporter : Exporter := tt.

End Cases.

(* ------------------------------------------------------------------ *)
(** ** A third environment: [net.Listen] checks the address it is given *)

Module GoNet.
Import Sample.

(** A port number a TCP listener can be asked for. *)
Definition valid_port (n : Z) : bool := (0 <=? n) && (n <=? 65535).

Definition opError (network : string) (cause : error) : error :=
  foreign_error ("listen " ++ network ++ ": " ++ Error cause) false.

(** [net.Listen] as the Go standard library resolves its address: the
    address must split into host and port, and the port must be a number
    from 0 to 65535; otherwise nothing is bound and an error is returned.
    A listener is represented by the address it was bound with. *)
Definition Listen (network address : string) (w : Z) : (string + error) * Z :=
  match SplitHostPort address with
  | inr err => (inr (opError network err), w)
  | inl (_, port) =>
      match Atoi port with
      | inl n =>
          if valid_port n then (inl address, w + 1)
          else (inr (opError network
                       (foreign_error ("address " ++ port ++ ": invalid port")
                          false)), w)
      | inr _ =>
          (inr (opError network
                  (foreign_error ("address " ++ port ++ ": unknown port")
                     false)), w)
      end
  end.

(** As [Sample.runtime], with that [net.Listen]. *)
#[export] Instance runtime : Runtime (V := Sample.values) := {|
  clock := fun w => w;
  GetRequestIDFromCtx := GetRequestIDFromCtx (Runtime := Sample.runtime);
  status_Code := status_Code (Runtime := Sample.runtime);
  strconv_escape := fun s => s;
  fmt_q_any := fmt_q_any (Runtime := Sample.runtime);
  net_SplitHostPort := SplitHostPort;
  strconv_Atoi := Atoi;
  net_Listen := Listen;
  os_Getenv := fun _ _ => "sample-project";
  stackdriver_NewExporter := fun _ w => (inl tt, w + 1)
|}.

Definition no_listener : option Listener := None.
Definition bound_at (address : string) : option Listener := Some address.
Definition a_listener : Listener := "0.0.0.0:9089".

End GoNet.

(* ================================================================== *)
(** * Properties *)

Section Properties.
Context {V : Values} {RT : Runtime}.

Local Arguments String.append : simpl never.

(** ** Basic facts *)

Lemma Status_Err_not_OK (st : Status) :
  status_code st <> codes.OK ->
  Status_Err (Some st) = Some (status_error st).
Proof.
  intros H. unfold Status_Err.
  destruct (N.eqb_spec (status_code st) codes.OK) as [E | _]; [contradiction | reflexivity].
Qed.

Lemma Status_Err_OK (st : Status) :
  status_code st = codes.OK -> Status_Err (Some st) = None.
Proof. intros H. unfold Status_Err. rewrite H. reflexivity. Qed.

(** A string that contains [sub] contains every character of [sub]. *)
Lemma prefix_mem (c : ascii) (sub s : string) :
  String.prefix sub s = true -> Str.mem c sub = true -> Str.mem c s = true.
Proof.
  revert s. induction sub as [| d sub IH]; intros s Hp Hm; [discriminate |].
  destruct s as [| e s]; [discriminate |].
  simpl in Hp. destruct (Ascii.ascii_dec d e) as [-> | ne]; [| discriminate].
  simpl in Hm |- *. destruct (Ascii.eqb c e); [reflexivity |].
  simpl in Hm |- *. apply IH; assumption.
Qed.

Lemma Contains_mem (c : ascii) (s sub : string) :
  Str.Contains s sub = true -> Str.mem c sub = true -> Str.mem c s = true.
Proof.
  induction s as [| d s IH]; simpl; intros Hc Hm.
  - rewrite orb_false_r in Hc. destruct sub; [discriminate Hm | discriminate Hc].
  - apply orb_true_iff in Hc. destruct Hc as [Hp | Hc].
    + change (Str.mem c (String d s) = true).
      apply (prefix_mem c sub); assumption.
    + rewrite (IH Hc Hm). apply orb_true_r.
Qed.

(** The text of a method-prefixed error opens with a double quote, which
    the fixed message does not contain: the message never includes it. *)
Lemma internal_message_hides_prefixed (fullMethod : string) (err : error) :
  Str.Contains internal_error_message (Error (method_prefixed fullMethod err))
  = false.
Proof.
  destruct (Str.Contains _ _) eqn:E; [| reflexivity].
  apply (Contains_mem Str.dquote_char) in E; [discriminate E |].
  unfold method_prefixed, fmt_q. reflexivity.
Qed.

(** *** Running [handleErr] *)

Ltac run :=
  unfold handleErr, handleErr_without_second_cancel_case, newRecoveryFunc,
    withTimeout,
    eh_LogError, eh_IsApplicationError, eh_ReportError, eh_ErrorToGRPCStatus,
    ph_LogPanic, ph_ReportPanic, ph_LogError, logger_Debug,
    bind, ret, call; cbn.

(** [handleErr] on a cancellation. *)
Lemma handleErr_canceled (e : error) (h : ErrorHandler.t) (w : World) :
  errors_Is_Canceled e = true ->
  handleErr e h w = (Returned None, ErrorHandler.LogError h e w, [EvLogError e]).
Proof. intros Hc. run. rewrite Hc. reflexivity. Qed.

(** [handleErr] never panics and never stops short: it returns an error
    value (possibly nil) in every world. *)
Lemma handleErr_returns (e : error) (h : ErrorHandler.t) (w : World) :
  exists (r : option error) (w' : World) (evs : list Event),
    handleErr e h w = (Returned r, w', EvLogError e :: evs).
Proof.
  run. destruct (errors_Is_Canceled e); [eauto |].
  destruct (ErrorHandler.IsApplicationError h e (ErrorHandler.LogError h e w))
    as [[|] w1]; cbn.
  - destruct (ErrorHandler.ErrorToGRPCStatus h e w1) as [[sts [cerr|]] w2];
      cbn; [| eauto].
    match goal with
    | |- context [ErrorHandler.ReportError ?a ?b ?c ?d] =>
        destruct (ErrorHandler.ReportError a b c d) as [[re|] w3]
    end; cbn; eauto.
  - match goal with
    | |- context [ErrorHandler.ReportError ?a ?b ?c ?d] =>
        destruct (ErrorHandler.ReportError a b c d) as [[re|] w3]
    end; cbn; eauto.
Qed.

(** The second cancellation case of the switch is dead: deleting it changes
    nothing. *)
Lemma handleErr_second_cancel_case_dead
    (e : error) (h : ErrorHandler.t) (w : World) :
  handleErr e h w = handleErr_without_second_cancel_case e h w.
Proof.
  run. destruct (errors_Is_Canceled e) eqn:Hc; reflexivity.
Qed.



(** [handleErr] on an error that is neither a cancellation nor an
    application error. *)
Lemma handleErr_unclassified
    (e : error) (h : ErrorHandler.t) (w w1 w2 : World)
    (reported : option error) :
  errors_Is_Canceled e = false ->
  ErrorHandler.IsApplicationError h e (ErrorHandler.LogError h e w)
  = (false, w1) ->
  ErrorHandler.ReportError h report_ctx e w1 = (reported, w2) ->
  handleErr e h w
  = (Returned (Some (status_error internal_status)),
     match reported with
     | None => w2
     | Some reportErr =>
         ErrorHandler.LogError h (reporting_failure e reportErr) w2
     end,
     [EvLogError e; EvIsApplicationError e; EvReportError report_ctx e]
     ++ match reported with
        | None => []
        | Some reportErr => [EvLogError (reporting_failure e reportErr)]
        end)%list.
Proof.
  intros Hc Happ Hrep. unfold report_ctx in Hrep.
  run. rewrite Hc, Happ. cbn. rewrite Hrep.
  destruct reported; reflexivity.
Qed.

(** Running the classifier interceptor when the handler returned an error. *)
Lemma errorHandlerInterceptor_on_error
    (h : ErrorHandler.t) (ctx : Context) (req : Any) (info : UnaryServerInfo)
    (handler : UnaryHandler) (w w0 w' : World) (resp : option Any)
    (err : error) (evh evs : list Event) (masked : option error) :
  handler ctx req w = (Returned (resp, Some err), w0, evh) ->
  handleErr (method_prefixed (FullMethod info) err) h w0
  = (Returned masked, w', evs) ->
  errorHandlerInterceptor h ctx req info handler w
  = (Returned (None, masked), w', (evh ++ evs)%list).
Proof.
  intros Hh He. unfold errorHandlerInterceptor, bind.
  rewrite Hh, He. unfold ret. rewrite app_nil_r. reflexivity.
Qed.

(* ------------------------------------------------------------------ *)
(** ** The interceptor chain *)

(** C1. Given the caller-supplied interceptors and whichever of the
    debug-logger, panic-handler and error-handler capabilities are present,
    the builder prepends the error classifier first, then panic recovery,
    then debug logging.  The resulting list is therefore Debug, Panic
    Recovery, Error Classifier, then the caller-supplied interceptors in
    their original order, and an absent capability contributes no element
    at all. *)
Theorem interceptor_chain_order
    (callers : list UnaryServerInterceptor)
    (logger : option debugLogger.t)
    (errorHandler : option ErrorHandler.t)
    (panicHandler : option PanicHandler.t)
    (l : debugLogger.t) (p : PanicHandler.t) (e : ErrorHandler.t) :
  let chain :=
    newGRPCServerWithListener_interceptors callers logger errorHandler
      panicHandler in
  (* built by prepending: error classifier, then recovery, then debug *)
  chain =
    optional_prepend debugInterceptor logger
      (optional_prepend panicInterceptor panicHandler
         (optional_prepend errorHandlerInterceptor errorHandler callers))
  (* hence ordered Debug, Panic Recovery, Error Classifier, callers *)
  /\ chain =
       (optional_layer debugInterceptor logger
          ++ optional_layer panicInterceptor panicHandler
          ++ optional_layer errorHandlerInterceptor errorHandler
          ++ callers)%list
  (* one element per present capability, none for an absent one *)
  /\ length chain =
       (present logger + present panicHandler + present errorHandler
          + length callers)%nat
  (* with all three present *)
  /\ newGRPCServerWithListener_interceptors callers (Some l) (Some e) (Some p)
     = debugInterceptor l :: panicInterceptor p
         :: errorHandlerInterceptor e :: callers
  (* with none present the list is the callers' own *)
  /\ newGRPCServerWithListener_interceptors callers None None None = callers.
Proof.
  unfold newGRPCServerWithListener_interceptors, prependDebugInterceptor,
    prependPanicHandler, prependErrorHandler, panicInterceptor.
  repeat split.
  - destruct logger, errorHandler, panicHandler; reflexivity.
  - destruct logger, errorHandler, panicHandler; reflexivity.
  - destruct logger, errorHandler, panicHandler; cbn; lia.
Qed.

(** X17. The chain is what the server is built with: when construction
    succeeds, the options of the server are the options given, then the
    stats handler when tracing is on, then the chain option exactly when
    the list of interceptors is not empty. *)
Lemma server_built_with_chain
    (lst : option Listener) (address : string) (tracing : bool)
    (defaults : list ServerOption) (callers : list UnaryServerInterceptor)
    (register : registerServerFunc)
    (logger : option debugLogger.t) (errorHandler : option ErrorHandler.t)
    (panicHandler : option PanicHandler.t)
    (w w' : World) (evs : list Event) (s : serverWithListener) :
  newGRPCServerWithListener lst address tracing defaults callers register
    logger errorHandler panicHandler w = (Returned (Some s, None), w', evs) ->
  let chain :=
    newGRPCServerWithListener_interceptors callers logger errorHandler
      panicHandler in
  let base :=
    if tracing then (defaults ++ [grpc_StatsHandler_ocgrpc])%list
    else defaults in
  server_options (internalGRPCServer (server s)) =
    match chain with
    | [] => base
    | _ :: _ => (base ++ [grpc_middleware_WithUnaryServerChain chain])%list
    end.
Proof.
  intros H chain base.
  unfold newGRPCServerWithListener, bind in H.
  destruct (newGRPCListener lst address w) as [[[[gl [ge|]]|q] w1] ev1];
    [unfold ret in H; cbn in H; discriminate H | | discriminate H].
  destruct (setGRPCTracing tracing defaults w1) as [[[[opts [te|]]|q] w2] ev2]
    eqn:Et;
    [unfold ret in H; cbn in H; discriminate H | | discriminate H].
  assert (Hopts : opts = base).
  { unfold setGRPCTracing, bind, ret, call in Et. subst base.
    destruct tracing; cbn in Et.
    - destruct (stackdriver_NewExporter _ w1) as [[x | xe] w3];
        cbn in Et; inversion Et; reflexivity.
    - inversion Et; reflexivity. }
  fold chain in H. subst opts.
  unfold call, ret in H. cbn in H.
  destruct register as [f |]; cbn in H;
    destruct chain; cbn in H; inversion H; reflexivity.
Qed.

(* ------------------------------------------------------------------ *)
(** ** The error classifier *)

(** C2 (as amended). For every error that satisfies the cancellation
    predicate, [handleErr] logs it and returns a nil error whatever the
    error handler would answer.  Consequently the later case of the switch
    that builds the status with message "context cancelled." is never
    taken: deleting it changes no run.  [handleErr] never builds a status
    with that message itself; it returns one only when the error is not a
    cancellation, the application classified it as its own and its
    [ErrorToGRPCStatus] conversion returned exactly that status. *)
Theorem handleErr_cancellation
    (e : error) (h : ErrorHandler.t) (w : World) (st : Status) :
  (errors_Is_Canceled e = true ->
     handleErr e h w
     = (Returned None, ErrorHandler.LogError h e w, [EvLogError e]))
  /\ handleErr e h w = handleErr_without_second_cancel_case e h w
  /\ (status_message st = "context cancelled." ->
     outcome (handleErr e h w) = Returned (Some (status_error st)) ->
     errors_Is_Canceled e = false
     /\ exists w1 w2,
         ErrorHandler.IsApplicationError h e (ErrorHandler.LogError h e w)
         = (true, w1)
         /\ ErrorHandler.ErrorToGRPCStatus h e w1 = ((Some st, None), w2)).
Proof.
  split; [apply handleErr_canceled |].
  split; [apply handleErr_second_cancel_case_dead |].
  intros Hmsg. unfold outcome. run.
  destruct (errors_Is_Canceled e); [discriminate |].
  destruct (ErrorHandler.IsApplicationError h e (ErrorHandler.LogError h e w))
    as [[|] w1] eqn:Happ; cbn.
  - destruct (ErrorHandler.ErrorToGRPCStatus h e w1) as [[sts [cerr|]] w2]
      eqn:Hconv; cbn.
    + match goal with
      | |- context [ErrorHandler.ReportError ?a ?b ?c ?d] =>
          destruct (ErrorHandler.ReportError a b c d) as [[re|] w3]
      end; cbn; intros H; inversion H; subst st; discriminate Hmsg.
    + intros H. split; [reflexivity |]. exists w1, w2. split; [reflexivity |].
      destruct sts as [st' |]; [| discriminate H].
      unfold Status_Err in H.
      destruct (N.eqb (status_code st') codes.OK); [discriminate H |].
      inversion H. subst st'. exact Hconv.
  - match goal with
    | |- context [ErrorHandler.ReportError ?a ?b ?c ?d] =>
        destruct (ErrorHandler.ReportError a b c d) as [[re|] w3]
    end; cbn; intros H; inversion H; subst st; discriminate Hmsg.
Qed.

(** C3 (as amended). For every non-cancellation error that
    [IsApplicationError] accepts and [ErrorToGRPCStatus] converts without
    error, [handleErr] returns the converted status as an error value,
    [Status.Err()]: when the converted status has a code other than OK the
    caller gets exactly that status, same code and same message; when it
    is nil or has code OK, [handleErr] returns a nil error.  [ReportError]
    is never invoked on that path. *)
Theorem handleErr_application_error
    (e : error) (h : ErrorHandler.t) (w w1 w2 : World) (sts : option Status) :
  errors_Is_Canceled e = false ->
  ErrorHandler.IsApplicationError h e (ErrorHandler.LogError h e w)
  = (true, w1) ->
  ErrorHandler.ErrorToGRPCStatus h e w1 = ((sts, None), w2) ->
  handleErr e h w
  = (Returned (Status_Err sts), w2,
     [EvLogError e; EvIsApplicationError e; EvErrorToGRPCStatus e])
  /\ (forall st, sts = Some st -> status_code st <> codes.OK ->
        outcome (handleErr e h w) = Returned (Some (status_error st))
        /\ wire_status (Some (status_error st)) = Some st)
  /\ (forall st, sts = Some st -> status_code st = codes.OK ->
        outcome (handleErr e h w) = Returned None)
  /\ (sts = None -> outcome (handleErr e h w) = Returned None)
  /\ count is_ReportError (events (handleErr e h w)) = 0%nat.
Proof.
  intros Hc Happ Hconv.
  assert (Hrun : handleErr e h w
                 = (Returned (Status_Err sts), w2,
                    [EvLogError e; EvIsApplicationError e;
                     EvErrorToGRPCStatus e])).
  { run. rewrite Hc, Happ. cbn. rewrite Hconv. reflexivity. }
  rewrite Hrun. unfold outcome, events. cbn [fst snd].
  split; [reflexivity |].
  split; [| split; [| split]].
  - intros st -> Hne. rewrite (Status_Err_not_OK st Hne). split; reflexivity.
  - intros st -> Hok. rewrite (Status_Err_OK st Hok). reflexivity.
  - intros ->. reflexivity.
  - reflexivity.
Qed.

(** C4. For every non-cancellation error that [IsApplicationError] accepts
    but [ErrorToGRPCStatus] fails to convert, [handleErr] returns the
    generic internal-error status: code Internal and the fixed message
    "internal error.", which is the same for every error and does not
    contain the text of the error the classifier was handed.  It logs the
    conversion failure and reports it through [ReportError] under a context
    derived from the background context with a one-second timeout; when
    that report fails, the only thing it does about it is one more
    [LogError]. *)
Theorem handleErr_conversion_failure
    (e : error) (h : ErrorHandler.t) (w w1 w2 w3 : World)
    (sts : option Status) (convErr : error) (reported : option error) :
  errors_Is_Canceled e = false ->
  ErrorHandler.IsApplicationError h e (ErrorHandler.LogError h e w)
  = (true, w1) ->
  ErrorHandler.ErrorToGRPCStatus h e w1 = ((sts, Some convErr), w2) ->
  ErrorHandler.ReportError h report_ctx (conversion_failure convErr)
    (ErrorHandler.LogError h (conversion_failure convErr) w2)
  = (reported, w3) ->
  handleErr e h w
  = (Returned (Some (status_error internal_status)),
     match reported with
     | None => w3
     | Some reportErr =>
         ErrorHandler.LogError h
           (reporting_failure (conversion_failure convErr) reportErr) w3
     end,
     [EvLogError e; EvIsApplicationError e; EvErrorToGRPCStatus e;
      EvLogError (conversion_failure convErr);
      EvReportError report_ctx (conversion_failure convErr)]
     ++ match reported with
        | None => []
        | Some reportErr =>
            [EvLogError
               (reporting_failure (conversion_failure convErr) reportErr)]
        end)%list
  /\ status_code internal_status = codes.Internal
  /\ status_message internal_status = "internal error."
  /\ report_ctx = context_WithTimeout context_Background 1000000000
  /\ detached report_ctx
  /\ count is_ReportError (events (handleErr e h w)) = 1%nat
  /\ (forall fullMethod err,
        e = method_prefixed fullMethod err ->
        Str.Contains (status_message internal_status) (Error e) = false).
Proof.
  intros Hc Happ Hconv Hrep.
  assert (Hrun : handleErr e h w
    = (Returned (Some (status_error internal_status)),
       match reported with
       | None => w3
       | Some reportErr =>
           ErrorHandler.LogError h
             (reporting_failure (conversion_failure convErr) reportErr) w3
       end,
       [EvLogError e; EvIsApplicationError e; EvErrorToGRPCStatus e;
        EvLogError (conversion_failure convErr);
        EvReportError report_ctx (conversion_failure convErr)]
       ++ match reported with
          | None => []
          | Some reportErr =>
              [EvLogError
                 (reporting_failure (conversion_failure convErr) reportErr)]
          end)%list).
  { unfold report_ctx, conversion_failure in Hrep.
    run. rewrite Hc, Happ. cbn. rewrite Hconv. cbn. rewrite Hrep.
    destruct reported; reflexivity. }
  rewrite Hrun. unfold events. cbn [snd].
  repeat split.
  - destruct reported; reflexivity.
  - intros fullMethod err ->. apply internal_message_hides_prefixed.
Qed.


(** C10. Whenever the downstream handler returns a non-nil error, the
    classifier interceptor returns a nil response: what the handler gave as
    response is dropped, and the error returned is whatever [handleErr]
    makes of the prefixed error.  When the error is a cancellation the
    caller gets a nil response together with a nil error. *)
Theorem error_path_discards_response
    (h : ErrorHandler.t) (ctx : Context) (req : Any) (info : UnaryServerInfo)
    (handler : UnaryHandler) (w w0 : World) (resp : option Any)
    (err : error) (evh : list Event) :
  let target := method_prefixed (FullMethod info) err in
  handler ctx req w = (Returned (resp, Some err), w0, evh) ->
  (exists (masked : option error) (w' : World) (evs : list Event),
      handleErr target h w0 = (Returned masked, w', evs)
      /\ errorHandlerInterceptor h ctx req info handler w
         = (Returned (None, masked), w', (evh ++ evs)%list))
  /\ (errors_Is_Canceled err = true ->
      errorHandlerInterceptor h ctx req info handler w
      = (Returned (None, None), ErrorHandler.LogError h target w0,
         (evh ++ [EvLogError target])%list)).
Proof.
  intros target Hh. split.
  - destruct (handleErr_returns target h w0) as [masked [w' [evs Hrun]]].
    exists masked, w', (EvLogError target :: evs). split; [exact Hrun |].
    exact (errorHandlerInterceptor_on_error _ _ _ _ _ _ _ _ _ _ _ _ _ Hh Hrun).
  - intros Hc.
    apply (errorHandlerInterceptor_on_error _ _ _ _ _ _ _ _ _ _ _ _ _ Hh).
    apply handleErr_canceled. exact Hc.
Qed.

(* ------------------------------------------------------------------ *)
(** ** Panic recovery *)

(** C6. For every recovered panic the recovery function first logs the
    panic value through [LogPanic], once, then calls [ReportPanic] once with
    a context freshly derived from the background context with a
    one-second timeout, which no cancellation of the call can reach.  A
    failed report is only logged through [LogError].  In every case the
    function returns the one fixed status Internal / "internal error.",
    whatever the payload, and the recovery interceptor ends the panicking
    call with a nil response and that status. *)
Theorem panic_recovery_masks
    (ph : PanicHandler.t) (p : Any) (w w1 : World) (reported : option error) :
  let trace :=
    ([EvLogPanic p; EvReportPanic report_ctx p]
     ++ match reported with
        | None => []
        | Some reportPanicErr =>
            [EvPanicLogError (panic_reporting_failure p reportPanicErr)]
        end)%list in
  let final :=
    match reported with
    | None => w1
    | Some reportPanicErr =>
        PanicHandler.LogError ph (panic_reporting_failure p reportPanicErr) w1
    end in
  PanicHandler.ReportPanic ph report_ctx p (PanicHandler.LogPanic ph p w)
  = (reported, w1) ->
  newRecoveryFunc ph p w
  = (Returned (Some (status_error internal_status)), final, trace)
  /\ hd_error trace = Some (EvLogPanic p)
  /\ count is_LogPanic trace = 1%nat
  /\ count is_ReportPanic trace = 1%nat
  /\ report_ctx = context_WithTimeout context_Background 1000000000
  /\ detached report_ctx
  /\ internal_status = status_New codes.Internal "internal error."
  /\ (forall (ctx : Context) (req : Any) (info : UnaryServerInfo)
            (handler : UnaryHandler) (w0 : World) (evh : list Event),
        handler ctx req w0 = (Panicked p, w, evh) ->
        panicInterceptor ph ctx req info handler w0
        = (Returned (None, Some (status_error internal_status)), final,
           (evh ++ trace)%list)).
Proof.
  intros trace final Hrep.
  assert (Hrun : newRecoveryFunc ph p w
                 = (Returned (Some (status_error internal_status)), final,
                    trace)).
  { unfold report_ctx in Hrep. subst trace final.
    run. rewrite Hrep. destruct reported; reflexivity. }
  split; [exact Hrun |].
  repeat split; try (subst trace; destruct reported; reflexivity).
  intros ctx req info handler w0 evh Hh.
  unfold panicInterceptor, grpc_recovery_UnaryServerInterceptor.
  rewrite Hh, Hrun. reflexivity.
Qed.

(* ------------------------------------------------------------------ *)
(** ** Debug logging *)


Lemma resolved_request_id_eq (ctx : Context) :
  (let (requestID, err) := GetRequestIDFromCtx ctx in
   match err with
   | Some _ => nil_request_id
   | None => requestID
   end) = resolved_request_id ctx.
Proof.
  unfold resolved_request_id. destruct (GetRequestIDFromCtx ctx) as [id [e|]];
    reflexivity.
Qed.

(** The debug interceptor, read off the source with the request id
    resolved. *)
Lemma debugInterceptor_unfold
    (logger : debugLogger.t) (ctx : Context) (req : Any)
    (info : UnaryServerInfo) (handler : UnaryHandler) (w : World) :
  debugInterceptor logger ctx req info handler w =
  if is_probe (path_Base (FullMethod info)) then handler ctx req w
  else
    match handler ctx req (world_at_downstream logger ctx info w) with
    | (Returned (resp, err), w1, evh) =>
        let d := time_Sub (clock w1) (clock w) in
        (Returned (resp, err),
         debugLogger.Debug logger (completed_message err)
           (completed_fields ctx req info err d) w1,
         (EvDebug "request started" (started_fields ctx info) :: evh
            ++ [EvDebug (completed_message err)
                  (completed_fields ctx req info err d)])%list)
    | (Panicked p, w1, evh) =>
        (Panicked p, w1,
         EvDebug "request started" (started_fields ctx info) :: evh)
    end.
Proof.
  unfold debugInterceptor, world_at_downstream, started_fields,
    completed_fields, completed_message, resolved_request_id, is_probe.
  unfold bind at 1. unfold time_Now.
  destruct (String.eqb (path_Base (FullMethod info)) "Check"
            || String.eqb (path_Base (FullMethod info)) "Watch").
  - destruct (handler ctx req w) as [[o w1] evh]. reflexivity.
  - destruct (GetRequestIDFromCtx ctx) as [id idErr]. cbn [fst snd].
    unfold bind, logger_Debug, call, time_Since, ret.
    destruct (handler ctx req _) as [[[[resp [e|]]|q] w1] evh];
      cbn; rewrite ?app_nil_r; reflexivity.
Qed.


(** C8. The debug interceptor only observes: in every call what it hands
    back to its caller, response and error (or the panic that passes
    through it), is exactly what the downstream handler produced. *)
Theorem debug_interceptor_transparent
    (logger : debugLogger.t) (ctx : Context) (req : Any)
    (info : UnaryServerInfo) (handler : UnaryHandler) (w : World) :
  outcome (debugInterceptor logger ctx req info handler w)
  = outcome (handler ctx req (world_at_downstream logger ctx info w)).
Proof.
  rewrite debugInterceptor_unfold. unfold world_at_downstream.
  destruct (is_probe (path_Base (FullMethod info))); [reflexivity |].
  destruct (handler ctx req _) as [[[[resp err]|q] w1] evh]; reflexivity.
Qed.

(* ------------------------------------------------------------------ *)
(** ** The listener resolver *)

Lemma int_sub_exact (port : Z) :
  int_min < port <= int_max -> int_sub port 1 = port - 1.
Proof.
  unfold int_sub, int_wrap, int_min, int_max. intros H.
  rewrite Z.mod_small; lia.
Qed.

(** C9 (as amended). A supplied listener is returned unchanged, without
    any bind.  With none supplied the address is split into host and port;
    a malformed address and a port that is not a number each fail with an
    error before anything is bound.  Otherwise the resolver makes exactly
    one attempt to bind a TCP listener, at the address written as the host,
    a colon and the port minus one: when the bind succeeds it returns that
    listener, and when the bind is refused it returns no listener and the
    bind error wrapped in "new net listener: ".  For "0.0.0.0:9090" the
    bind is at "0.0.0.0:9089" and, when it succeeds, the listener bound
    there is returned. *)
Theorem listener_resolver
    (addr : string) (w w1 : World) (supplied bound : Listener)
    (host portString : string) (port : Z)
    (splitErr atoiErr bindErr : error) :
  let target := host ++ ":" ++ fmt_d (int_sub port 1) in
  newGRPCListener (Some supplied) addr w
  = (Returned (Some supplied, None), w, [])
  /\ (net_SplitHostPort addr = inr splitErr ->
      newGRPCListener None addr w
      = (Returned (None, Some (fmt_Errorf_w "invalid address: " splitErr)),
         w, []))
  /\ (net_SplitHostPort addr = inl (host, portString) ->
      strconv_Atoi portString = inr atoiErr ->
      newGRPCListener None addr w
      = (Returned (None, Some (fmt_Errorf_w "parse port: " atoiErr)), w, []))
  /\ (net_SplitHostPort addr = inl (host, portString) ->
      strconv_Atoi portString = inl port ->
      (* the bind succeeds *)
      (net_Listen "tcp" target w = (inl bound, w1) ->
       newGRPCListener None addr w
       = (Returned (Some bound, None), w1, [EvListen "tcp" target]))
      (* the bind is refused *)
      /\ (net_Listen "tcp" target w = (inr bindErr, w1) ->
          newGRPCListener None addr w
          = (Returned
               (None, Some (fmt_Errorf_w "new net listener: " bindErr)),
             w1, [EvListen "tcp" target]))
      (* either way *)
      /\ newGRPCListener None addr w
         = (Returned
              match fst (net_Listen "tcp" target w) with
              | inl l => (Some l, None)
              | inr err => (None, Some (fmt_Errorf_w "new net listener: " err))
              end,
            snd (net_Listen "tcp" target w),
            [EvListen "tcp" target])
      /\ count is_Listen (events (newGRPCListener None addr w)) = 1%nat
      /\ (int_min < port <= int_max ->
          target = host ++ ":" ++ fmt_d (port - 1)))
  /\ (net_SplitHostPort "0.0.0.0:9090" = inl ("0.0.0.0", "9090") ->
      strconv_Atoi "9090" = inl 9090 ->
      net_Listen "tcp" "0.0.0.0:9089" w = (inl bound, w1) ->
      newGRPCListener None "0.0.0.0:9090" w
      = (Returned (Some bound, None), w1, [EvListen "tcp" "0.0.0.0:9089"])).
Proof.
  intros target. unfold newGRPCListener.
  split; [reflexivity |].
  split; [intros ->; reflexivity |].
  split; [intros -> ->; reflexivity |].
  split.
  - intros -> ->. unfold bind, net_Listen_call, call, ret, events.
    fold target.
    split; [intros ->; reflexivity |].
    split; [intros ->; reflexivity |].
    split; [destruct (net_Listen "tcp" target w) as [[l | err] w2];
            reflexivity |].
    split; [destruct (net_Listen "tcp" target w) as [[l | err] w2];
            reflexivity |].
    intros Hr. unfold target. rewrite (int_sub_exact port Hr). reflexivity.
  - intros -> ->. unfold bind, net_Listen_call, call, ret.
    change (fmt_d (int_sub 9090 1)) with "9089".
    change ("0.0.0.0" ++ ":" ++ "9089") with "0.0.0.0:9089".
    intros ->. reflexivity.
Qed.

End Properties.

(* ================================================================== *)
(** * Further properties of the gRPC package *)

Section ServerProperties.
Context {V : Values} {RT : Runtime}.

Local Arguments String.append : simpl never.

(** *** Shapes of the two steps before the server is built *)

Lemma newGRPCListener_shape (lst : option Listener) (addr : string) (w : World) :
  exists r w' evs,
    newGRPCListener lst addr w = (Returned r, w', evs)
    /\ ((exists l, r = (Some l, None)) \/ (exists e, r = (None, Some e)))
    /\ (forall l, lst = Some l -> r = (Some l, None) /\ evs = []).
Proof.
  unfold newGRPCListener. destruct lst as [l |].
  - do 3 eexists. split; [reflexivity |]. split; [eauto |].
    intros l' H. inversion H. split; reflexivity.
  - destruct (net_SplitHostPort addr) as [[host portString] | err].
    + destruct (strconv_Atoi portString) as [port | err].
      * unfold bind, net_Listen_call, call, ret.
        destruct (net_Listen _ _ w) as [[bound | err] w1];
          do 3 eexists; (split; [reflexivity |]); split; eauto; discriminate.
      * do 3 eexists. split; [reflexivity |]. split; [eauto | discriminate].
    + do 3 eexists. split; [reflexivity |]. split; [eauto | discriminate].
Qed.

Lemma setGRPCTracing_shape (tracing : bool) (opts : list ServerOption)
    (w : World) :
  (tracing = false /\
   setGRPCTracing tracing opts w = (Returned (opts, None), w, []))
  \/ (tracing = true /\ exists x w1,
        stackdriver_NewExporter (os_Getenv "GOOGLE_CLOUD_PROJECT" w) w
        = (inl x, w1)
        /\ setGRPCTracing tracing opts w
           = (Returned ((opts ++ [grpc_StatsHandler_ocgrpc])%list, None), w1,
              [EvNewExporter (os_Getenv "GOOGLE_CLOUD_PROJECT" w);
               EvRegisterExporter x; EvApplyAlwaysSample]))
  \/ (tracing = true /\ exists cause w1,
        stackdriver_NewExporter (os_Getenv "GOOGLE_CLOUD_PROJECT" w) w
        = (inr cause, w1)
        /\ setGRPCTracing tracing opts w
           = (Returned ([], Some (fmt_Errorf_w "new exporter: " cause)), w1,
              [EvNewExporter (os_Getenv "GOOGLE_CLOUD_PROJECT" w)])).
Proof.
  unfold setGRPCTracing. destruct tracing; cbn [negb].
  - right. unfold bind, call, ret.
    destruct (stackdriver_NewExporter _ w) as [[x | cause] w1] eqn:Ex.
    + left. split; [reflexivity |]. exists x, w1. split; reflexivity.
    + right. split; [reflexivity |]. exists cause, w1. split; reflexivity.
  - left. split; reflexivity.
Qed.

(** X1. [setGRPCTracing] never loses an option.  With tracing off it
    returns the options it was given and touches nothing.  With tracing on
    it asks for an exporter for the project named by GOOGLE_CLOUD_PROJECT;
    when one is created it registers exactly that exporter, applies the
    always-sample configuration, and returns the options it was given, in
    order, followed by the one stats handler; when none can be created it
    returns no options and exactly that cause wrapped in "new exporter: ",
    and registers nothing.  On every successful return the options given
    are a prefix of the options returned. *)
Theorem setGRPCTracing_keeps_options
    (tracing : bool) (opts opts' : list ServerOption) (err : option error)
    (w w1 w' : World) (evs : list Event) (x : Exporter) (cause : error) :
  let projectID := os_Getenv "GOOGLE_CLOUD_PROJECT" w in
  (tracing = false ->
     setGRPCTracing tracing opts w = (Returned (opts, None), w, []))
  /\ (tracing = true ->
      stackdriver_NewExporter projectID w = (inl x, w1) ->
      setGRPCTracing tracing opts w
      = (Returned ((opts ++ [grpc_StatsHandler_ocgrpc])%list, None), w1,
         [EvNewExporter projectID; EvRegisterExporter x;
          EvApplyAlwaysSample]))
  /\ (tracing = true ->
      stackdriver_NewExporter projectID w = (inr cause, w1) ->
      setGRPCTracing tracing opts w
      = (Returned ([], Some (fmt_Errorf_w "new exporter: " cause)), w1,
         [EvNewExporter projectID]))
  /\ (setGRPCTracing tracing opts w = (Returned (opts', err), w', evs) ->
      (err = None ->
         firstn (length opts) opts' = opts
         /\ skipn (length opts) opts'
            = (if tracing then [grpc_StatsHandler_ocgrpc] else []))
      /\ (err <> None ->
          tracing = true /\ opts' = []
          /\ evs = [EvNewExporter projectID]
          /\ count is_RegisterExporter evs = 0%nat)).
Proof.
  intros projectID.
  split.
  { intros ->. reflexivity. }
  split.
  { intros -> Hx. unfold setGRPCTracing, bind, call, ret. cbn [negb].
    fold projectID. rewrite Hx. reflexivity. }
  split.
  { intros -> Hx. unfold setGRPCTracing, bind, call, ret. cbn [negb].
    fold projectID. rewrite Hx. reflexivity. }
  intros H.
  destruct (setGRPCTracing_shape tracing opts w)
    as [[Ht E] | [[Ht [x0 [w2 [_ E]]]] | [Ht [cause0 [w2 [_ E]]]]]];
    rewrite E in H; inversion H; subst; clear H.
  - split.
    + intros _. rewrite firstn_all, skipn_all. split; reflexivity.
    + intros Hn. contradiction Hn. reflexivity.
  - split.
    + intros _. rewrite firstn_app, firstn_all, Nat.sub_diag.
      rewrite skipn_app, skipn_all, Nat.sub_diag. cbn.
      rewrite app_nil_r. split; reflexivity.
    + intros Hn. contradiction Hn. reflexivity.
  - split.
    + intros He. discriminate He.
    + intros _. repeat split.
Qed.

(** X2. [newGRPCServerWithListener] returns a server or an error, never
    both and never neither.  Reflection and the registration callback are
    run only for a server that is returned: reflection exactly once, the
    callback once when one was given; on an error neither has run.  A
    listener that was supplied is the listener of the server. *)
Theorem server_or_error
    (lst : option Listener) (address : string) (tracing : bool)
    (defaults : list ServerOption) (callers : list UnaryServerInterceptor)
    (register : registerServerFunc)
    (logger : option debugLogger.t) (errorHandler : option ErrorHandler.t)
    (panicHandler : option PanicHandler.t) (w : World) :
  exists s err w' evs,
    newGRPCServerWithListener lst address tracing defaults callers register
      logger errorHandler panicHandler w = (Returned (s, err), w', evs)
    /\ ((s = None /\ (exists e, err = Some e)
         /\ count is_ReflectionRegister evs = 0%nat
         /\ count is_RegisterServer evs = 0%nat)
        \/ (exists srv l,
              s = Some srv /\ err = None
              /\ listener srv = Some l
              /\ (forall l0, lst = Some l0 -> l = l0)
              /\ count is_ReflectionRegister evs = 1%nat
              /\ count is_RegisterServer evs = present register)).
Proof.
  unfold newGRPCServerWithListener.
  destruct (newGRPCListener_shape lst address w)
    as [r [w1 [ev1 [El [[[l Hr] | [e Hr]] Hl]]]]]; subst r.
  - assert (Hev1 : count is_ReflectionRegister ev1 = 0%nat
                   /\ count is_RegisterServer ev1 = 0%nat).
    { revert El. unfold newGRPCListener.
      destruct lst as [l0 |]; [intros E; inversion E; split; reflexivity |].
      destruct (net_SplitHostPort address) as [[host portString] | err];
        [| intros E; inversion E].
      destruct (strconv_Atoi portString) as [port | err];
        [| intros E; inversion E].
      unfold bind, net_Listen_call, call, ret.
      destruct (net_Listen _ _ w) as [[bound | err] w2];
        intros E; inversion E; split; reflexivity. }
    destruct Hev1 as [Hr1 Hr2].
    unfold bind at 1. rewrite El.
    destruct (setGRPCTracing_shape tracing defaults w1)
      as [[Ht E] | [[Ht [x [w2 [_ E]]]] | [Ht [cause [w2 [_ E]]]]]].
    + unfold bind at 1. rewrite E. unfold bind, call, ret.
      destruct register as [f |]; cbn;
        do 4 eexists; (split; [reflexivity |]); right; eexists; exists l;
        (split; [reflexivity |]); (split; [reflexivity |]);
        (split; [reflexivity |]);
        (split; [intros l0 Hl0; destruct (Hl l0 Hl0) as [Hx _];
                 inversion Hx; reflexivity |]);
        unfold count in *; rewrite !filter_app, !length_app, ?Hr1, ?Hr2;
        split; reflexivity.
    + unfold bind at 1. rewrite E. unfold bind, call, ret.
      destruct register as [f |]; cbn;
        do 4 eexists; (split; [reflexivity |]); right; eexists; exists l;
        (split; [reflexivity |]); (split; [reflexivity |]);
        (split; [reflexivity |]);
        (split; [intros l0 Hl0; destruct (Hl l0 Hl0) as [Hx _];
                 inversion Hx; reflexivity |]);
        unfold count in *; rewrite !filter_app, !length_app, ?Hr1, ?Hr2;
        split; reflexivity.
    + unfold bind at 1. rewrite E. unfold ret. cbn.
      do 4 eexists. split; [reflexivity |]. left.
      split; [reflexivity |]. split; [eauto |].
      unfold count in *. rewrite !filter_app, !length_app, ?Hr1, ?Hr2.
      split; reflexivity.
  - assert (Hev1 : count is_ReflectionRegister ev1 = 0%nat
                   /\ count is_RegisterServer ev1 = 0%nat).
    { revert El. unfold newGRPCListener.
      destruct lst as [l0 |]; [intros E; inversion E; split; reflexivity |].
      destruct (net_SplitHostPort address) as [[host portString] | err];
        [| intros E; inversion E; split; reflexivity].
      destruct (strconv_Atoi portString) as [port | err];
        [| intros E; inversion E; split; reflexivity].
      unfold bind, net_Listen_call, call, ret.
      destruct (net_Listen _ _ w) as [[bound | err] w2];
        intros E; inversion E; split; reflexivity. }
    destruct Hev1 as [Hr1 Hr2].
    unfold bind at 1. rewrite El. unfold ret. cbn.
    do 4 eexists. split; [reflexivity |]. left.
    split; [reflexivity |]. split; [eauto |].
    rewrite app_nil_r. split; assumption.
Qed.

(** X3. When the address was resolved and a listener bound, and tracing
    then fails, construction returns only the error, wrapped first in
    "new exporter: " and then in "set grpc tracing tracing: ".  The bound
    listener is not part of the result, and nothing is done with it after
    the bind: the trace ends with the attempt to create the exporter. *)
Theorem tracing_failure_after_bind
    (address host portString : string) (port : Z) (bound : Listener)
    (cause : error) (defaults : list ServerOption)
    (callers : list UnaryServerInterceptor) (register : registerServerFunc)
    (logger : option debugLogger.t) (errorHandler : option ErrorHandler.t)
    (panicHandler : option PanicHandler.t) (w w1 w2 : World) :
  let target := host ++ ":" ++ fmt_d (int_sub port 1) in
  let projectID := os_Getenv "GOOGLE_CLOUD_PROJECT" w1 in
  net_SplitHostPort address = inl (host, portString) ->
  strconv_Atoi portString = inl port ->
  net_Listen "tcp" target w = (inl bound, w1) ->
  stackdriver_NewExporter projectID w1 = (inr cause, w2) ->
  newGRPCServerWithListener None address true defaults callers register
    logger errorHandler panicHandler w
  = (Returned
       (None,
        Some (fmt_Errorf_w "set grpc tracing tracing: "
                (fmt_Errorf_w "new exporter: " cause))),
     w2,
     [EvListen "tcp" target; EvNewExporter projectID]).
Proof.
  intros target projectID Hs Ha Hl Hx.
  unfold newGRPCServerWithListener, newGRPCListener.
  rewrite Hs, Ha. fold target.
  unfold setGRPCTracing, bind, net_Listen_call, call, ret. cbn [negb].
  rewrite Hl. fold projectID. rewrite Hx. reflexivity.
Qed.

End ServerProperties.

(* ================================================================== *)
(** * Further properties of the interceptors *)

Section InterceptorProperties.
Context {V : Values} {RT : Runtime}.

Local Arguments String.append : simpl never.

Ltac step :=
  unfold handleErr, newRecoveryFunc, withTimeout,
    eh_LogError, eh_IsApplicationError, eh_ReportError, eh_ErrorToGRPCStatus,
    ph_LogPanic, ph_ReportPanic, ph_LogError, logger_Debug,
    bind, ret, call; cbn.

Ltac split_report :=
  match goal with
  | |- context [ErrorHandler.ReportError ?a ?b ?c ?d] =>
      destruct (ErrorHandler.ReportError a b c d) as [[?re|] ?w3]
  end.

(** X4. [handleErr] never hands the raw error back.  What it returns is
    nil or a status error whose code is not OK, and that status is either
    the fixed Internal / "internal error." or exactly the status the
    application's [ErrorToGRPCStatus] returned, without error, for an error
    that [IsApplicationError] accepted. *)
Theorem handleErr_returns_nil_or_status
    (e : error) (h : ErrorHandler.t) (w : World) :
  exists r w' evs,
    handleErr e h w = (Returned r, w', evs)
    /\ (r = None
        \/ exists st,
             r = Some (status_error st)
             /\ status_code st <> codes.OK
             /\ (st = internal_status
                 \/ exists w1 w2,
                      ErrorHandler.IsApplicationError h e
                        (ErrorHandler.LogError h e w) = (true, w1)
                      /\ ErrorHandler.ErrorToGRPCStatus h e w1
                         = ((Some st, None), w2))).
Proof.
  step. destruct (errors_Is_Canceled e); [do 3 eexists; eauto |].
  destruct (ErrorHandler.IsApplicationError h e (ErrorHandler.LogError h e w))
    as [[|] w1] eqn:Happ; cbn.
  - destruct (ErrorHandler.ErrorToGRPCStatus h e w1) as [[sts [cerr|]] w2]
      eqn:Hconv; cbn.
    + split_report; cbn; do 3 eexists; (split; [reflexivity |]); right;
        exists internal_status; repeat split; try discriminate; left;
        reflexivity.
    + destruct sts as [st |]; cbn; [| do 3 eexists; eauto].
      destruct (N.eqb_spec (status_code st) codes.OK) as [Hok | Hne];
        do 3 eexists; (split; [reflexivity |]); [left; reflexivity |].
      right. exists st. split; [reflexivity |]. split; [exact Hne |].
      right. exists w1, w2. split; [reflexivity | exact Hconv].
  - split_report; cbn; do 3 eexists; (split; [reflexivity |]); right;
      exists internal_status; repeat split; try discriminate; left;
      reflexivity.
Qed.

(** X5. In every run of [handleErr] the first call is [LogError] with the
    error it was given; [ReportError] is called at most once, always under
    the context derived from the background context with the one-second
    timeout, and not at all when the error is a cancellation or the
    application converted it to a status. *)
Theorem handleErr_reports_at_most_once
    (e : error) (h : ErrorHandler.t) (w : World) :
  let evs := events (handleErr e h w) in
  hd_error evs = Some (EvLogError e)
  /\ (count is_ReportError evs <= 1)%nat
  /\ Forall (fun ev => reported_under ev = report_ctx) evs
  /\ (errors_Is_Canceled e = true -> count is_ReportError evs = 0%nat)
  /\ (forall w1 w2 sts,
        ErrorHandler.IsApplicationError h e (ErrorHandler.LogError h e w)
        = (true, w1) ->
        ErrorHandler.ErrorToGRPCStatus h e w1 = ((sts, None), w2) ->
        count is_ReportError evs = 0%nat).
Proof.
  unfold events. step.
  destruct (errors_Is_Canceled e) eqn:Hc.
  - cbn. split; [reflexivity |]. split; [unfold count; cbn; lia |].
    split; [repeat constructor |]. split; intros; reflexivity.
  - destruct (ErrorHandler.IsApplicationError h e
                (ErrorHandler.LogError h e w)) as [[|] w1] eqn:Happ; cbn.
    + destruct (ErrorHandler.ErrorToGRPCStatus h e w1)
        as [[sts [cerr|]] w2] eqn:Hconv; cbn.
      * split_report; cbn; (split; [reflexivity |]);
          (split; [unfold count; cbn; lia |]);
          (split; [repeat constructor |]);
          (split; [discriminate |]);
          intros w1' w2' sts' H1 H2; inversion H1; subst;
          rewrite Hconv in H2; discriminate H2.
      * split; [reflexivity |]. split; [unfold count; cbn; lia |].
        split; [repeat constructor |]. split; [discriminate |].
        intros; reflexivity.
    + split_report; cbn; (split; [reflexivity |]);
        (split; [unfold count; cbn; lia |]);
        (split; [repeat constructor |]);
        (split; [discriminate |]);
        intros w1' w2' sts' H1 H2; discriminate H1.
Qed.

(** X6. When the downstream handler returns without error, or panics, the
    classifier interceptor adds nothing: its run is the downstream run, and
    the error handler is not called at all. *)
Theorem errorHandlerInterceptor_transparent
    (h : ErrorHandler.t) (ctx : Context) (req : Any) (info : UnaryServerInfo)
    (handler : UnaryHandler) (w : World) :
  (forall err resp, outcome (handler ctx req w) <> Returned (resp, Some err)) ->
  errorHandlerInterceptor h ctx req info handler w = handler ctx req w.
Proof.
  intros H. unfold errorHandlerInterceptor, bind, outcome in *.
  destruct (handler ctx req w) as [[[[resp [err|]]|p] w1] evh]; cbn in *.
  - exfalso. apply (H err resp). reflexivity.
  - unfold ret. rewrite app_nil_r. reflexivity.
  - reflexivity.
Qed.

(** X7. When the downstream handler panics, the panic passes through the
    debug interceptor unchanged.  For a probe method nothing has been
    logged; for any other method the "request started" entry has been
    logged and no completion entry follows. *)
Theorem debug_interceptor_on_panic
    (logger : debugLogger.t) (ctx : Context) (req : Any)
    (info : UnaryServerInfo) (handler : UnaryHandler) (w w1 : World)
    (p : Any) (evh : list Event) :
  handler ctx req (world_at_downstream logger ctx info w)
  = (Panicked p, w1, evh) ->
  debugInterceptor logger ctx req info handler w
  = (Panicked p, w1,
     if is_probe (path_Base (FullMethod info)) then evh
     else EvDebug "request started" (started_fields ctx info) :: evh)
  /\ count is_Debug (events (debugInterceptor logger ctx req info handler w))
     = ((if is_probe (path_Base (FullMethod info)) then 0 else 1)
        + count is_Debug evh)%nat.
Proof.
  intros Hh. rewrite debugInterceptor_unfold.
  unfold world_at_downstream in *.
  destruct (is_probe (path_Base (FullMethod info))).
  - rewrite Hh. split; reflexivity.
  - rewrite Hh. split; reflexivity.
Qed.

(** *** The three capability layers run together *)

(** The chain assembled from all three capabilities, as
    [ChainUnaryServer] runs it: debug around recovery around the
    classifier around the caller-supplied interceptors. *)
Lemma full_chain_unfold
    (l : debugLogger.t) (eh : ErrorHandler.t) (ph : PanicHandler.t)
    (callers : list UnaryServerInterceptor)
    (ctx : Context) (req : Any) (info : UnaryServerInfo)
    (handler : UnaryHandler) :
  grpc_middleware_ChainUnaryServer
    (newGRPCServerWithListener_interceptors callers (Some l) (Some eh)
       (Some ph)) ctx req info handler
  = debugInterceptor l ctx req info
      (fun c r =>
         panicInterceptor ph c r info
           (fun c r =>
              errorHandlerInterceptor eh c r info
                (fun c r =>
                   grpc_middleware_ChainUnaryServer callers c r info
                     handler))).
Proof. reflexivity. Qed.

Lemma newRecoveryFunc_run
    (ph : PanicHandler.t) (p : Any) (w w1 : World) (reported : option error) :
  PanicHandler.ReportPanic ph report_ctx p (PanicHandler.LogPanic ph p w)
  = (reported, w1) ->
  newRecoveryFunc ph p w
  = (Returned (Some (status_error internal_status)),
     match reported with
     | None => w1
     | Some reportPanicErr =>
         PanicHandler.LogError ph (panic_reporting_failure p reportPanicErr) w1
     end,
     ([EvLogPanic p; EvReportPanic report_ctx p]
      ++ match reported with
         | None => []
         | Some reportPanicErr =>
             [EvPanicLogError (panic_reporting_failure p reportPanicErr)]
         end)%list).
Proof.
  intros Hrep. unfold report_ctx in Hrep. step. rewrite Hrep.
  destruct reported; reflexivity.
Qed.

(** X8. With all three capabilities configured, a panic anywhere below the
    classifier (in the service handler or a caller-supplied interceptor) on
    a method that is not a probe ends as a nil response with the masked
    status.  The error handler is not called for it; the panic handler logs
    and reports it; and the debug logger, having logged the start, logs a
    completion entry "request completed with error" that carries the masked
    status error. *)
Theorem chain_recovers_panic
    (l : debugLogger.t) (eh : ErrorHandler.t) (ph : PanicHandler.t)
    (callers : list UnaryServerInterceptor)
    (ctx : Context) (req : Any) (info : UnaryServerInfo)
    (handler : UnaryHandler) (w w1 w2 : World) (p : Any)
    (evh : list Event) (reported : option error) :
  let masked := Some (status_error internal_status) in
  let recovered :=
    match reported with
    | None => w2
    | Some reportPanicErr =>
        PanicHandler.LogError ph (panic_reporting_failure p reportPanicErr) w2
    end in
  let recovery :=
    ([EvLogPanic p; EvReportPanic report_ctx p]
     ++ match reported with
        | None => []
        | Some reportPanicErr =>
            [EvPanicLogError (panic_reporting_failure p reportPanicErr)]
        end)%list in
  let d := time_Sub (clock recovered) (clock w) in
  is_probe (path_Base (FullMethod info)) = false ->
  grpc_middleware_ChainUnaryServer callers ctx req info handler
    (debugLogger.Debug l "request started" (started_fields ctx info) w)
  = (Panicked p, w1, evh) ->
  PanicHandler.ReportPanic ph report_ctx p (PanicHandler.LogPanic ph p w1)
  = (reported, w2) ->
  grpc_middleware_ChainUnaryServer
    (newGRPCServerWithListener_interceptors callers (Some l) (Some eh)
       (Some ph)) ctx req info handler w
  = (Returned (None, masked),
     debugLogger.Debug l "request completed with error"
       (completed_fields ctx req info masked d) recovered,
     (EvDebug "request started" (started_fields ctx info)
        :: (evh ++ recovery)
        ++ [EvDebug "request completed with error"
              (completed_fields ctx req info masked d)])%list)
  /\ count is_ErrorHandler_call recovery = 0%nat.
Proof.
  intros masked recovered recovery d Hp Hh Hrep.
  split.
  - rewrite full_chain_unfold, debugInterceptor_unfold.
    unfold world_at_downstream. rewrite Hp.
    unfold panicInterceptor, grpc_recovery_UnaryServerInterceptor.
    unfold errorHandlerInterceptor at 1. unfold bind at 1. rewrite Hh.
    rewrite (newRecoveryFunc_run ph p w1 w2 reported Hrep).
    reflexivity.
  - subst recovery. destruct reported; reflexivity.
Qed.

(** X9. With all three capabilities configured, a call on a method that is
    not a probe whose downstream returns a cancellation ends, for the
    caller, as a nil response and a nil error, and the debug logger records
    it as "request completed successfully".  The error handler only logs
    the method-prefixed error: it is neither classified nor reported. *)
Theorem chain_treats_cancellation_as_success
    (l : debugLogger.t) (eh : ErrorHandler.t) (ph : PanicHandler.t)
    (callers : list UnaryServerInterceptor)
    (ctx : Context) (req : Any) (info : UnaryServerInfo)
    (handler : UnaryHandler) (w w1 : World) (resp : option Any)
    (err : error) (evh : list Event) :
  let target := method_prefixed (FullMethod info) err in
  let logged := ErrorHandler.LogError eh target w1 in
  let d := time_Sub (clock logged) (clock w) in
  is_probe (path_Base (FullMethod info)) = false ->
  grpc_middleware_ChainUnaryServer callers ctx req info handler
    (debugLogger.Debug l "request started" (started_fields ctx info) w)
  = (Returned (resp, Some err), w1, evh) ->
  errors_Is_Canceled err = true ->
  grpc_middleware_ChainUnaryServer
    (newGRPCServerWithListener_interceptors callers (Some l) (Some eh)
       (Some ph)) ctx req info handler w
  = (Returned (None, None),
     debugLogger.Debug l "request completed successfully"
       (completed_fields ctx req info None d) logged,
     (EvDebug "request started" (started_fields ctx info)
        :: (evh ++ [EvLogError target])
        ++ [EvDebug "request completed successfully"
              (completed_fields ctx req info None d)])%list).
Proof.
  intros target logged d Hp Hh Hc.
  rewrite full_chain_unfold, debugInterceptor_unfold.
  unfold world_at_downstream. rewrite Hp.
  unfold panicInterceptor, grpc_recovery_UnaryServerInterceptor.
  rewrite (errorHandlerInterceptor_on_error eh ctx req info _ _ w1 logged
             resp err evh [EvLogError target] None Hh
             (handleErr_canceled target eh w1 Hc)).
  reflexivity.
Qed.

(** X10. With all three capabilities configured, an error that is neither
    a cancellation nor an application error is masked before the debug
    logger sees it: on a method that is not a probe the completion entry
    carries the status error Internal / "internal error.", not the error
    the downstream returned, and that status is what the caller gets with
    a nil response.  The panic handler is not called. *)
Theorem chain_masks_before_debug
    (l : debugLogger.t) (eh : ErrorHandler.t) (ph : PanicHandler.t)
    (callers : list UnaryServerInterceptor)
    (ctx : Context) (req : Any) (info : UnaryServerInfo)
    (handler : UnaryHandler) (w w1 w2 w3 : World) (resp : option Any)
    (err : error) (evh : list Event) (reported : option error) :
  let target := method_prefixed (FullMethod info) err in
  let masked := Some (status_error internal_status) in
  let classified :=
    match reported with
    | None => w3
    | Some reportErr =>
        ErrorHandler.LogError eh (reporting_failure target reportErr) w3
    end in
  let classification :=
    ([EvLogError target; EvIsApplicationError target;
      EvReportError report_ctx target]
     ++ match reported with
        | None => []
        | Some reportErr => [EvLogError (reporting_failure target reportErr)]
        end)%list in
  let d := time_Sub (clock classified) (clock w) in
  is_probe (path_Base (FullMethod info)) = false ->
  grpc_middleware_ChainUnaryServer callers ctx req info handler
    (debugLogger.Debug l "request started" (started_fields ctx info) w)
  = (Returned (resp, Some err), w1, evh) ->
  errors_Is_Canceled err = false ->
  ErrorHandler.IsApplicationError eh target (ErrorHandler.LogError eh target w1)
  = (false, w2) ->
  ErrorHandler.ReportError eh report_ctx target w2 = (reported, w3) ->
  grpc_middleware_ChainUnaryServer
    (newGRPCServerWithListener_interceptors callers (Some l) (Some eh)
       (Some ph)) ctx req info handler w
  = (Returned (None, masked),
     debugLogger.Debug l "request completed with error"
       (completed_fields ctx req info masked d) classified,
     (EvDebug "request started" (started_fields ctx info)
        :: (evh ++ classification)
        ++ [EvDebug "request completed with error"
              (completed_fields ctx req info masked d)])%list)
  /\ In (zap_Error (status_error internal_status))
       (completed_fields ctx req info masked d)
  /\ count is_LogPanic classification = 0%nat
  /\ count is_ReportPanic classification = 0%nat.
Proof.
  intros target masked classified classification d Hp Hh Hc Happ Hrep.
  split.
  - rewrite full_chain_unfold, debugInterceptor_unfold.
    unfold world_at_downstream. rewrite Hp.
    unfold panicInterceptor, grpc_recovery_UnaryServerInterceptor.
    rewrite (errorHandlerInterceptor_on_error eh ctx req info _ _ w1
               classified resp err evh classification masked Hh
               (handleErr_unclassified target eh w1 w2 w3 reported Hc Happ
                  Hrep)).
    reflexivity.
  - split; [cbn; auto |].
    subst classification. destruct reported; split; reflexivity.
Qed.

End InterceptorProperties.

(* ================================================================== *)
(** * Properties of the Kafka subscriber *)

Section KafkaProperties.
Context {E : Kafka.Env}.

(** X11. [Subscribe] accepts exactly one channel.  With none, or with more
    than one, it returns [ErrExactlyOneChannelAllowed] and no subscription
    without touching the broker.  With one, it subscribes once, to that
    channel and under the background context; a failure comes back wrapped
    in "subscribe: " with no subscription, and a success gives the
    subscription built from the messages and the subscriber's own cluster
    admin. *)
Theorem Subscribe_exactly_one_channel
    (s : Kafka.Subscriber) (channels : list string) (w : Kafka.World) :
  (length channels <> 1%nat ->
     Kafka.Subscribe s channels w
     = ((None, Some Kafka.ErrExactlyOneChannelAllowed), w, []))
  /\ (forall channel,
        channels = [channel] ->
        Kafka.Subscribe s channels w
        = (match fst (Kafka.kafka_Subscribe (Kafka.kafkaSubscriber s)
                        Kafka.context_Background channel w) with
           | inl mes =>
               (Some (Kafka.newSubscription mes (Kafka.clusterAdmin s)), None)
           | inr err => (None, Some (fmt_Errorf_w "subscribe: " err))
           end,
           snd (Kafka.kafka_Subscribe (Kafka.kafkaSubscriber s)
                  Kafka.context_Background channel w),
           [Kafka.EvSubscribe (Kafka.kafkaSubscriber s)
              Kafka.context_Background channel]))
  /\ (length (filter Kafka.is_Subscribe (snd (Kafka.Subscribe s channels w)))
      = if Nat.eqb (length channels) 1 then 1%nat else 0%nat).
Proof.
  unfold Kafka.Subscribe. split; [| split].
  - intros Hlen. destruct (Nat.eqb_spec (length channels) 1) as [H1 | _];
      [contradiction | reflexivity].
  - intros channel ->. cbn. unfold Kafka.kbind, Kafka.kcall, Kafka.kret.
    destruct (Kafka.kafka_Subscribe _ _ channel w) as [[mes | err] w1];
      reflexivity.
  - destruct (Nat.eqb (length channels) 1) eqn:H1; [| reflexivity].
    destruct channels as [| c rest]; [discriminate H1 |].
    cbn. unfold Kafka.kbind, Kafka.kcall, Kafka.kret.
    destruct (Kafka.kafka_Subscribe _ _ c w) as [[mes | err] w1]; reflexivity.
Qed.

(** X12. [NewSubscriber] returns a subscriber or an error, never both.  The
    cluster admin is created first, from the brokers and the sarama
    configuration given; when that fails no Kafka subscriber is created.
    The Kafka subscriber is created at most once and with the same brokers,
    the same sarama configuration and the consumer group given.  When the
    Kafka subscriber cannot be created the error is returned and the
    cluster admin already created is not part of the result. *)
Theorem NewSubscriber_result
    (logger : Kafka.Logger) (saramaConfig : Kafka.SaramaConfig)
    (brokers : list string) (consumerGroup : string) (w : Kafka.World) :
  let config :=
    Kafka.mkSubscriberConfig brokers tt saramaConfig consumerGroup in
  let r := fst (fst (Kafka.NewSubscriber logger saramaConfig brokers
                       consumerGroup w)) in
  let evs := snd (Kafka.NewSubscriber logger saramaConfig brokers
                    consumerGroup w) in
  (fst r = None <-> snd r <> None)
  /\ hd_error evs = Some (Kafka.EvNewClusterAdmin brokers saramaConfig)
  /\ (evs = [Kafka.EvNewClusterAdmin brokers saramaConfig]
      \/ evs = [Kafka.EvNewClusterAdmin brokers saramaConfig;
                Kafka.EvNewSubscriber config (Kafka.newLoggerAdapter logger)])
  /\ (forall err w1,
        Kafka.sarama_NewClusterAdmin brokers saramaConfig w = (inr err, w1) ->
        r = (None, Some (fmt_Errorf_w "new sarama client: " err))
        /\ evs = [Kafka.EvNewClusterAdmin brokers saramaConfig])
  /\ (forall admin w1 err w2,
        Kafka.sarama_NewClusterAdmin brokers saramaConfig w = (inl admin, w1) ->
        Kafka.kafka_NewSubscriber config (Kafka.newLoggerAdapter logger) w1
        = (inr err, w2) ->
        r = (None, Some (fmt_Errorf_w "new kafka subscriber: " err))).
Proof.
  intros config r evs. subst r evs.
  unfold Kafka.NewSubscriber, Kafka.kbind, Kafka.kcall, Kafka.kret.
  fold config.
  destruct (Kafka.sarama_NewClusterAdmin brokers saramaConfig w)
    as [[admin | err] w1]; cbn.
  - destruct (Kafka.kafka_NewSubscriber config (Kafka.newLoggerAdapter logger)
                w1) as [[sub | err] w2] eqn:Hs; cbn.
    + split; [split; [discriminate | intros H; contradiction H; reflexivity] |].
      split; [reflexivity |]. split; [right; reflexivity |].
      split; [intros err w1' H; discriminate H |].
      intros admin' w1' err w2' H1 H2. inversion H1; subst.
      rewrite Hs in H2. discriminate H2.
    + split; [split; [discriminate | reflexivity] |].
      split; [reflexivity |]. split; [right; reflexivity |].
      split; [intros err' w1' H; discriminate H |].
      intros admin' w1' err' w2' H1 H2. inversion H1; subst.
      rewrite Hs in H2. inversion H2. reflexivity.
  - split; [split; [discriminate | reflexivity] |].
    split; [reflexivity |]. split; [left; reflexivity |].
    split; [intros err' w1' H; inversion H; split; reflexivity |].
    intros admin' w1' err' w2' H1. discriminate H1.
Qed.

(** X13. A subscriber that [NewSubscriber] returned subscribes through the
    Kafka subscriber that was created for it, and the subscription it
    returns is built with the cluster admin that was created for it. *)
Theorem NewSubscriber_then_Subscribe
    (logger : Kafka.Logger) (saramaConfig : Kafka.SaramaConfig)
    (brokers : list string) (consumerGroup topic : string)
    (admin : Kafka.ClusterAdmin) (sub : Kafka.KafkaSubscriber)
    (mes : Kafka.Messages) (w w1 w2 w3 w4 : Kafka.World) :
  Kafka.sarama_NewClusterAdmin brokers saramaConfig w = (inl admin, w1) ->
  Kafka.kafka_NewSubscriber
    (Kafka.mkSubscriberConfig brokers tt saramaConfig consumerGroup)
    (Kafka.newLoggerAdapter logger) w1 = (inl sub, w2) ->
  Kafka.kafka_Subscribe sub Kafka.context_Background topic w3 = (inl mes, w4) ->
  exists s,
    fst (Kafka.NewSubscriber logger saramaConfig brokers consumerGroup w)
    = ((Some s, None), w2)
    /\ Kafka.Subscribe s [topic] w3
       = ((Some (Kafka.newSubscription mes admin), None), w4,
          [Kafka.EvSubscribe sub Kafka.context_Background topic])
    /\ Kafka.Close s w4
       = (fst (Kafka.kafka_Close sub w4), snd (Kafka.kafka_Close sub w4),
          [Kafka.EvClose sub]).
Proof.
  intros Ha Hs Hm. exists (Kafka.mkSubscriber sub admin).
  unfold Kafka.NewSubscriber, Kafka.Subscribe, Kafka.Close,
    Kafka.kbind, Kafka.kcall, Kafka.kret.
  rewrite Ha, Hs. cbn. rewrite Hm.
  split; [reflexivity |]. split; [reflexivity |].
  destruct (Kafka.kafka_Close sub w4); reflexivity.
Qed.

End KafkaProperties.

(* ================================================================== *)
(** * Properties of the HTTP request logger *)

Section HTTPLogProperties.
Context {E : HTTPLog.Env}.

Lemma is_prefix_app (p l : list HTTPLog.Field) :
  HTTPLog.is_prefix p (p ++ l).
Proof. induction p as [| x p IH]; cbn; auto. Qed.

Lemma is_prefix_trans (a b c : list HTTPLog.Field) :
  HTTPLog.is_prefix a b -> HTTPLog.is_prefix b c -> HTTPLog.is_prefix a c.
Proof.
  revert b c. induction a as [| x a IH]; intros b c Hab Hbc; cbn; auto.
  destruct b as [| y b]; [contradiction |].
  destruct c as [| z c]; [contradiction |].
  cbn in *. destruct Hab as [-> Hab]. destruct Hbc as [-> Hbc].
  split; [reflexivity | eauto].
Qed.

(** X14. [NewLogEntry] logs exactly one record, "request started", on a
    child of the logger it was given: same sink, the parent's fields first
    and unchanged, then exactly these, in this order: "ts" with the
    formatted current time; "req.id" with the request id, present exactly
    when that id is not empty; "http_scheme"; "http_proto"; "http_method";
    "remote_addr"; "user_agent"; and "uri", each with the request's own
    value.  The scheme is "https" exactly when the request came over TLS
    and "http" otherwise, and the "uri" value is that same scheme, "://",
    the host and the request URI. *)
Theorem NewLogEntry_fields
    (l : HTTPLog.structuredLogger) (r : HTTPLog.Request) (w : HTTPLog.World) :
  let entry := fst (HTTPLog.NewLogEntry l r w) in
  let scheme :=
    match HTTPLog.TLS r with
    | Some _ => "https"
    | None => "http"
    end in
  let added :=
    ([HTTPLog.zap_String "ts" (HTTPLog.now_RFC1123 w)]
     ++ (if String.eqb (HTTPLog.ReqID r) "" then []
         else [HTTPLog.zap_String "req.id" (HTTPLog.ReqID r)])
     ++ [HTTPLog.zap_String "http_scheme" scheme;
         HTTPLog.zap_String "http_proto" (HTTPLog.Proto r);
         HTTPLog.zap_String "http_method" (HTTPLog.Method r);
         HTTPLog.zap_String "remote_addr" (HTTPLog.RemoteAddr r);
         HTTPLog.zap_String "user_agent" (HTTPLog.UserAgent r);
         HTTPLog.zap_String "uri"
           (scheme ++ "://" ++ HTTPLog.Host r ++ HTTPLog.RequestURI r)])%list
  in
  HTTPLog.NewLogEntry l r w
  = (HTTPLog.mk_structuredLoggerEntry
       (HTTPLog.mk_zap_Logger (HTTPLog.core (HTTPLog.Logger l))
          (HTTPLog.context (HTTPLog.Logger l) ++ added)%list),
     [HTTPLog.Info
        (HTTPLog.mk_zap_Logger (HTTPLog.core (HTTPLog.Logger l))
           (HTTPLog.context (HTTPLog.Logger l) ++ added)%list)
        "request started"])
  /\ HTTPLog.has_key "req.id" added
     = negb (String.eqb (HTTPLog.ReqID r) "")
  /\ length added
     = (if String.eqb (HTTPLog.ReqID r) "" then 7 else 8)%nat
  /\ (scheme = "https" <-> HTTPLog.TLS r <> None)
  /\ (scheme = "http" <-> HTTPLog.TLS r = None).
Proof.
  intros entry scheme added. subst added scheme.
  unfold HTTPLog.NewLogEntry, HTTPLog.With.
  split.
  { destruct (String.eqb (HTTPLog.ReqID r) ""); cbn [negb app];
      destruct (HTTPLog.TLS r); reflexivity. }
  split.
  { destruct (String.eqb (HTTPLog.ReqID r) ""); reflexivity. }
  split.
  { destruct (String.eqb (HTTPLog.ReqID r) ""); reflexivity. }
  destruct (HTTPLog.TLS r); split; split; intros H; try discriminate;
    try reflexivity; contradiction H; reflexivity.
Qed.

Lemma apply_call_extends (e : HTTPLog.structuredLoggerEntry)
    (c : HTTPLog.EntryCall) :
  HTTPLog.is_prefix (HTTPLog.context (HTTPLog.entry_Logger e))
    (HTTPLog.context (HTTPLog.entry_Logger (fst (HTTPLog.apply_call e c))))
  /\ HTTPLog.core (HTTPLog.entry_Logger (fst (HTTPLog.apply_call e c)))
     = HTTPLog.core (HTTPLog.entry_Logger e)
  /\ snd (HTTPLog.apply_call e c)
     = if HTTPLog.is_Write c
       then [HTTPLog.Info
               (HTTPLog.entry_Logger (fst (HTTPLog.apply_call e c)))
               "request complete"]
       else [].
Proof.
  destruct c; cbn; (split; [apply is_prefix_app |]); split; reflexivity.
Qed.

(** X15. Whatever sequence of [Write] and [Panic] calls is made on an
    entry, every record logged is a "request complete" record that begins
    with the fields the entry had at the start, in their order, and goes to
    the same sink; there is one record per [Write] and none for a [Panic];
    and the entry left behind still begins with those fields. *)
Theorem entry_records_keep_fields
    (e : HTTPLog.structuredLoggerEntry) (cs : list HTTPLog.EntryCall) :
  let e' := fst (HTTPLog.apply_calls e cs) in
  let out := snd (HTTPLog.apply_calls e cs) in
  Forall (fun r =>
            HTTPLog.record_message r = "request complete"
            /\ HTTPLog.core (HTTPLog.record_logger r)
               = HTTPLog.core (HTTPLog.entry_Logger e)
            /\ HTTPLog.is_prefix (HTTPLog.context (HTTPLog.entry_Logger e))
                 (HTTPLog.context (HTTPLog.record_logger r))) out
  /\ length out = length (filter HTTPLog.is_Write cs)
  /\ HTTPLog.is_prefix (HTTPLog.context (HTTPLog.entry_Logger e))
       (HTTPLog.context (HTTPLog.entry_Logger e'))
  /\ HTTPLog.core (HTTPLog.entry_Logger e')
     = HTTPLog.core (HTTPLog.entry_Logger e).
Proof.
  revert e. induction cs as [| c cs IH]; intros e.
  - cbn. split; [constructor |]. split; [reflexivity |].
    split; [| reflexivity].
    rewrite <- (app_nil_r (HTTPLog.context (HTTPLog.entry_Logger e))) at 2.
    apply is_prefix_app.
  - cbn [HTTPLog.apply_calls].
    destruct (apply_call_extends e c) as [Hpre [Hcore Hout]].
    destruct (HTTPLog.apply_call e c) as [e1 out1]. cbn [fst snd] in *.
    specialize (IH e1). cbn zeta in IH.
    destruct (HTTPLog.apply_calls e1 cs) as [e2 out2]. cbn [fst snd] in *.
    destruct IH as [Hall [Hlen [Hpre2 Hcore2]]].
    split; [| split; [| split]].
    + apply Forall_app. split.
      * rewrite Hout. destruct (HTTPLog.is_Write c).
        -- constructor; [| constructor].
           cbn. repeat split; assumption.
        -- constructor.
      * eapply Forall_impl; [| exact Hall].
        intros r [Hm [Hc Hp]]. split; [exact Hm |].
        split; [rewrite Hc; exact Hcore |].
        eapply is_prefix_trans; eassumption.
    + rewrite length_app, Hlen, Hout. cbn [filter].
      destruct (HTTPLog.is_Write c); reflexivity.
    + eapply is_prefix_trans; eassumption.
    + rewrite Hcore2. exact Hcore.
Qed.

(** X16. A request that panics and is then written off is logged with the
    request's fields first, then the stack and the panic value, then the
    status, the byte count and the duration in milliseconds; the panic
    itself logs nothing.  The timestamp of the completion record is the one
    taken when the entry was created. *)
Theorem Panic_then_Write
    (l : HTTPLog.structuredLogger) (r : HTTPLog.Request) (w : HTTPLog.World)
    (v : HTTPLog.Value) (stack : string) (status bytes : Z)
    (elapsed : Duration) :
  let started := fst (HTTPLog.NewLogEntry l r w) in
  let panicked := fst (HTTPLog.Panic started v stack) in
  snd (HTTPLog.Panic started v stack) = []
  /\ snd (HTTPLog.Write panicked status bytes elapsed)
     = [HTTPLog.Info
          (HTTPLog.mk_zap_Logger (HTTPLog.core (HTTPLog.Logger l))
             (HTTPLog.context (HTTPLog.entry_Logger started)
                ++ [HTTPLog.zap_String "stack" stack;
                    HTTPLog.zap_String "panic" (HTTPLog.fmt_plus_v v)]
                ++ [HTTPLog.zap_Int "status" status;
                    HTTPLog.zap_Int "bytes_length" bytes;
                    HTTPLog.zap_Float64 "duration_ms"
                      (HTTPLog.milliseconds elapsed)])%list)
          "request complete"]
  /\ In (HTTPLog.zap_String "ts" (HTTPLog.now_RFC1123 w))
       (HTTPLog.context
          (HTTPLog.entry_Logger
             (fst (HTTPLog.Write panicked status bytes elapsed)))).
Proof.
  intros started panicked. subst panicked started.
  unfold HTTPLog.Write, HTTPLog.Panic, HTTPLog.NewLogEntry, HTTPLog.With.
  cbn [fst snd HTTPLog.entry_Logger HTTPLog.context HTTPLog.core].
  split; [reflexivity |]. split.
  - rewrite <- !app_assoc. reflexivity.
  - rewrite !in_app_iff. left. left. right.
    destruct (String.eqb (HTTPLog.ReqID r) ""); cbn; auto.
Qed.

End HTTPLogProperties.

(* ================================================================== *)
(** * Concrete runs *)

Example path_Base_of_method :
  path_Base "/grpc.health.v1.Health/Check" = "Check"
  /\ path_Base "/svc.Users/Get" = "Get"
  /\ path_Base "Watch" = "Watch"
  /\ path_Base "a/b/" = "b"
  /\ path_Base "///" = "/"
  /\ path_Base "" = ".".
Proof. repeat split. Qed.

(** The probe test is an exact, case-sensitive comparison. *)
Example probe_names :
  is_probe "Check" = true /\ is_probe "Watch" = true
  /\ is_probe "check" = false /\ is_probe "WATCH" = false
  /\ is_probe "Checked" = false.
Proof. repeat split. Qed.

Example split_and_parse :
  Sample.SplitHostPort "0.0.0.0:9090" = inl ("0.0.0.0", "9090")
  /\ Sample.SplitHostPort "[::1]:443" = inl ("::1", "443")
  /\ Sample.SplitHostPort "localhost"
     = inr (foreign_error "address localhost: missing port in address" false)
  /\ Sample.Atoi "9090" = inl 9090
  /\ Sample.Atoi "-1" = inl (-1)
  /\ fmt_d (int_sub 9090 1) = "9089"
  /\ fmt_d (int_sub 0 1) = "-1"
  /\ int_sub int_min 1 = int_max.
Proof. repeat split. Qed.

(** The chain built from all three capabilities, run on a handler that
    panics: the debug entries surround the recovery, and the caller gets the
    masked status. *)
Example chain_on_panic :
  grpc_middleware_ChainUnaryServer
    (newGRPCServerWithListener_interceptors (RT := Sample.runtime) []
       (Some Sample.logger)
       (Some (Sample.errorHandler false (None, None) None))
       (Some (Sample.panicHandler None)))
    (Sample.identified "rid-7") (Sample.payload "req")
    (Sample.info "/svc.Users/Get") (Sample.panicking "boom") 100
  = (Returned (None, Some (status_error internal_status)), 104,
     [EvDebug "request started"
        [zap_String "trace_id" "rid-7"; zap_String "method" "Get"];
      EvLogPanic (Sample.payload "boom");
      EvReportPanic report_ctx (Sample.payload "boom");
      EvDebug "request completed with error"
        [zap_String "trace_id" "rid-7"; zap_String "method" "Get";
         zap_Any "request" (Sample.payload "req");
         zap_Error (status_error internal_status);
         zap_String "code" "Internal";
         zap_Duration "duration" 3]]).
Proof. reflexivity. Qed.

(** The same chain on a handler that fails with an unclassified error: the
    classifier masks it and the debug entry shows the masked status. *)
Example chain_on_internal_error :
  grpc_middleware_ChainUnaryServer
    (newGRPCServerWithListener_interceptors (RT := Sample.runtime) []
       (Some Sample.logger)
       (Some (Sample.errorHandler false (None, None) None))
       (Some (Sample.panicHandler None)))
    (Sample.identified "rid-8") (Sample.payload "req")
    (Sample.info "/svc.Users/Get")
    (Sample.handler 5 (Some "partial", Some Sample.not_found)) 100
  = (Returned (None, Some (status_error internal_status)), 110,
     [EvDebug "request started"
        [zap_String "trace_id" "rid-8"; zap_String "method" "Get"];
      EvLogError Sample.get_failed;
      EvIsApplicationError Sample.get_failed;
      EvReportError report_ctx Sample.get_failed;
      EvDebug "request completed with error"
        [zap_String "trace_id" "rid-8"; zap_String "method" "Get";
         zap_Any "request" (Sample.payload "req");
         zap_Error (status_error internal_status);
         zap_String "code" "Internal";
         zap_Duration "duration" 9]]).
Proof. reflexivity. Qed.

(** C2, the claim as first stated fails: it says [handleErr] returns a
    status with message "context cancelled." for no input.  Here the error
    is not a cancellation, the application accepts it and converts it to
    Internal / "context cancelled.", and [handleErr] returns that status. *)
Lemma handleErr_cancelled_status_counterexample :
  errors_Is_Canceled Sample.not_found = false
  /\ outcome (handleErr (RT := Sample.runtime) Sample.not_found
               Sample.echoing_handler 0)
     = Returned
         (Some (status_error
                  (status_New codes.Internal "context cancelled.")))
  /\ ~ (forall (e : error) (h : ErrorHandler.t) (w : World),
          outcome (handleErr (RT := Sample.runtime) e h w)
          <> Returned
               (Some (status_error
                        (status_New codes.Internal "context cancelled.")))).
Proof.
  split; [reflexivity |]. split; [reflexivity |].
  intros H. apply (H Sample.not_found Sample.echoing_handler 0). reflexivity.
Qed.

Lemma handleErr_cancellation_witness :
  errors_Is_Canceled (fmt_Errorf_w "Get: " context_Canceled) = true
  /\ handleErr (RT := Sample.runtime) (fmt_Errorf_w "Get: " context_Canceled)
       (Sample.errorHandler true (Some Sample.user_not_found, None) None) 0
     = (Returned None, 1,
        [EvLogError (fmt_Errorf_w "Get: " context_Canceled)])
  /\ errors_Is_Canceled Sample.not_found = false
  /\ exists w1 w2,
       ErrorHandler.IsApplicationError Sample.echoing_handler
         Sample.not_found
         (ErrorHandler.LogError Sample.echoing_handler Sample.not_found 0)
       = (true, w1)
       /\ ErrorHandler.ErrorToGRPCStatus Sample.echoing_handler
            Sample.not_found w1
          = ((Some context_cancelled_status, None), w2).
Proof.
  split; [reflexivity |].
  split.
  - apply (proj1 (handleErr_cancellation (RT := Sample.runtime)
                    (fmt_Errorf_w "Get: " context_Canceled)
                    (Sample.errorHandler true
                       (Some Sample.user_not_found, None) None) 0
                    context_cancelled_status)).
    reflexivity.
  - apply (proj2 (proj2 (handleErr_cancellation (RT := Sample.runtime)
                           Sample.not_found Sample.echoing_handler 0
                           context_cancelled_status)));
      reflexivity.
Defined.

(** C3, the claim as first stated fails: the error is not a cancellation,
    the application accepts it and converts it without error to the status
    OK / "done", and [handleErr] returns a nil error, not that status: the
    message "done" is lost. *)
Lemma handleErr_ok_status_counterexample :
  errors_Is_Canceled Sample.not_found = false
  /\ ErrorHandler.IsApplicationError Sample.ok_converting_handler
       Sample.not_found 1 = (true, 2)
  /\ ErrorHandler.ErrorToGRPCStatus Sample.ok_converting_handler
       Sample.not_found 2 = ((Some (status_New codes.OK "done"), None), 3)
  /\ outcome (handleErr (RT := Sample.runtime) Sample.not_found
               Sample.ok_converting_handler 0)
     = Returned None
  /\ outcome (handleErr (RT := Sample.runtime) Sample.not_found
               Sample.ok_converting_handler 0)
     <> Returned (Some (status_error (status_New codes.OK "done")))
  /\ wire_status None <> Some (status_New codes.OK "done").
Proof.
  repeat split; discriminate.
Qed.

Lemma handleErr_application_error_witness :
  errors_Is_Canceled Sample.not_found = false
  /\ handleErr (RT := Sample.runtime) Sample.not_found
       (Sample.errorHandler true (Some Sample.user_not_found, None) None) 0
     = (Returned (Some (status_error Sample.user_not_found)), 3,
        [EvLogError Sample.not_found; EvIsApplicationError Sample.not_found;
         EvErrorToGRPCStatus Sample.not_found])
  /\ wire_status (Some (status_error Sample.user_not_found))
     = Some (status_New codes.NotFound "user not found")
  /\ count is_ReportError
       (events (handleErr (RT := Sample.runtime) Sample.not_found
                  (Sample.errorHandler true
                     (Some Sample.user_not_found, None) None) 0)) = 0%nat.
Proof.
  pose proof (handleErr_application_error (RT := Sample.runtime)
                Sample.not_found
                (Sample.errorHandler true
                   (Some Sample.user_not_found, None) None)
                0 2 3 (Some Sample.user_not_found)
                eq_refl eq_refl eq_refl) as H.
  split; [reflexivity |].
  split; [exact (proj1 H) |].
  split.
  - exact (proj2 (proj1 (proj2 H) Sample.user_not_found eq_refl
                    ltac:(discriminate))).
  - exact (proj2 (proj2 (proj2 (proj2 H)))).
Defined.

Lemma handleErr_conversion_failure_witness :
  errors_Is_Canceled Sample.get_failed = false
  /\ outcome (handleErr (RT := Sample.runtime)
               Sample.get_failed
               (Sample.errorHandler true (None, Some (errors_New "no mapping"))
                  (Some (errors_New "sink down"))) 0)
     = Returned (Some (status_error
                         (status_New codes.Internal "internal error.")))
  /\ count is_ReportError
       (events (handleErr (RT := Sample.runtime)
                  Sample.get_failed
                  (Sample.errorHandler true
                     (None, Some (errors_New "no mapping"))
                     (Some (errors_New "sink down"))) 0)) = 1%nat
  /\ Str.Contains "internal error."
       (Error Sample.get_failed) = false.
Proof.
  pose proof (handleErr_conversion_failure (RT := Sample.runtime)
                Sample.get_failed
                (Sample.errorHandler true
                   (None, Some (errors_New "no mapping"))
                   (Some (errors_New "sink down")))
                0 2 3 5 None (errors_New "no mapping")
                (Some (errors_New "sink down"))
                eq_refl eq_refl eq_refl eq_refl) as H.
  split; [reflexivity |].
  split; [rewrite (proj1 H); reflexivity |].
  split.
  - exact (proj1 (proj2 (proj2 (proj2 (proj2 (proj2 H)))))).
  - exact (proj2 (proj2 (proj2 (proj2 (proj2 (proj2 H)))))
             "/svc.Users/Get" Sample.not_found eq_refl).
Defined.


Lemma error_path_discards_response_witness :
  Sample.handler 5 (Some "partial", Some context_Canceled)
    Sample.anonymous "req" 0
  = (Returned (Some "partial", Some context_Canceled), 5, [])
  /\ errors_Is_Canceled context_Canceled = true
  /\ outcome
       (errorHandlerInterceptor (RT := Sample.runtime)
          (Sample.errorHandler false (None, None) None)
          Sample.anonymous "req" (Sample.info "/svc.Users/Get")
          (Sample.handler 5 (Some "partial", Some context_Canceled)) 0)
     = Returned (None, None).
Proof.
  split; [reflexivity |]. split; [reflexivity |].
  rewrite (proj2 (error_path_discards_response (RT := Sample.runtime)
                    (Sample.errorHandler false (None, None) None)
                    Sample.anonymous "req"
                    (Sample.info "/svc.Users/Get")
                    (Sample.handler 5 (Some "partial", Some context_Canceled))
                    0 5 (Some "partial") context_Canceled [] eq_refl)
             eq_refl).
  reflexivity.
Defined.

Lemma panic_recovery_masks_witness :
  PanicHandler.ReportPanic (V := Sample.values) (Sample.panicHandler None)
    report_ctx "boom" 1
  = (None, 2)
  /\ newRecoveryFunc (RT := Sample.runtime) (Sample.panicHandler None) "boom" 0
     = (Returned (Some (status_error
                          (status_New codes.Internal "internal error."))),
        2,
        [EvLogPanic (Sample.payload "boom");
         EvReportPanic
           (context_WithTimeout context_Background 1000000000)
           (Sample.payload "boom")])
  /\ outcome
       (panicInterceptor (RT := Sample.runtime) (Sample.panicHandler None)
          Sample.anonymous "req" (Sample.info "/svc.Users/Get")
          (Sample.panicking "boom") 0)
     = Returned (None, Some (status_error
                               (status_New codes.Internal "internal error."))).
Proof.
  split; [reflexivity |].
  pose proof (panic_recovery_masks (RT := Sample.runtime)
                (Sample.panicHandler None) "boom" 0 2 None eq_refl) as H.
  split; [exact (proj1 H) |].
  rewrite (proj2 (proj2 (proj2 (proj2 (proj2 (proj2 (proj2 H))))))
             Sample.anonymous "req" (Sample.info "/svc.Users/Get")
             (Sample.panicking "boom") 0 [] eq_refl).
  reflexivity.
Defined.


(** C9, the claim as first stated fails: it says that for an address that
    is well formed and has a numeric port a listener is bound on the same
    host at the port minus one.  "127.0.0.1:0" is well formed and its port
    is a number; the resolver asks for "127.0.0.1:-1", [net.Listen] refuses
    it, and the resolver returns no listener and the wrapped error. *)
Lemma listener_resolver_port_zero_counterexample :
  net_SplitHostPort (Runtime := GoNet.runtime) "127.0.0.1:0"
  = inl ("127.0.0.1", "0")
  /\ strconv_Atoi (Runtime := GoNet.runtime) "0" = inl 0
  /\ newGRPCListener (RT := GoNet.runtime) None "127.0.0.1:0" 0
     = (Returned
          (GoNet.no_listener,
           Some (fmt_Errorf_w "new net listener: "
                   (foreign_error "listen tcp: address -1: invalid port"
                      false))),
        0, [EvListen "tcp" "127.0.0.1:-1"])
  /\ (forall bound : Listener,
        outcome (newGRPCListener (RT := GoNet.runtime) None "127.0.0.1:0" 0)
        <> Returned (Some bound, None)).
Proof. repeat split. intros bound H. discriminate H. Qed.

Lemma listener_resolver_witness :
  net_SplitHostPort (Runtime := GoNet.runtime) "0.0.0.0:9090"
  = inl ("0.0.0.0", "9090")
  /\ strconv_Atoi (Runtime := GoNet.runtime) "9090" = inl 9090
  /\ net_Listen (Runtime := GoNet.runtime) "tcp" "0.0.0.0:9089" 0
     = (inl GoNet.a_listener, 1)
  /\ newGRPCListener (RT := GoNet.runtime) None "0.0.0.0:9090" 0
     = (Returned (GoNet.bound_at "0.0.0.0:9089", None), 1,
        [EvListen "tcp" "0.0.0.0:9089"])
  /\ newGRPCListener (RT := GoNet.runtime) None "localhost" 0
     = (Returned
          (GoNet.no_listener,
           Some (fmt_Errorf_w "invalid address: "
                   (foreign_error
                      "address localhost: missing port in address" false))),
        0, [])
  /\ newGRPCListener (RT := GoNet.runtime) None "localhost:grpc" 0
     = (Returned
          (GoNet.no_listener,
           Some (fmt_Errorf_w "parse port: "
                   (foreign_error
                      ("strconv.Atoi: parsing " ++ Str.dquote ++ "grpc"
                         ++ Str.dquote ++ ": invalid syntax") false))),
        0, [])
  /\ newGRPCListener (RT := GoNet.runtime) None "127.0.0.1:0" 0
     = (Returned
          (GoNet.no_listener,
           Some (fmt_Errorf_w "new net listener: "
                   (foreign_error "listen tcp: address -1: invalid port"
                      false))),
        0, [EvListen "tcp" "127.0.0.1:-1"]).
Proof.
  split; [reflexivity |]. split; [reflexivity |]. split; [reflexivity |].
  split.
  { exact (proj2 (proj2 (proj2 (proj2
             (listener_resolver (RT := GoNet.runtime) "0.0.0.0:9090" 0 1
                GoNet.a_listener GoNet.a_listener "0.0.0.0" "9090" 9090
                (errors_New "unused") (errors_New "unused")
                (errors_New "unused")))))
           eq_refl eq_refl eq_refl). }
  split.
  { exact (proj1 (proj2
             (listener_resolver (RT := GoNet.runtime) "localhost" 0 0
                GoNet.a_listener GoNet.a_listener "" "" 0
                (foreign_error
                   "address localhost: missing port in address" false)
                (errors_New "unused") (errors_New "unused")))
           eq_refl). }
  split.
  { exact (proj1 (proj2 (proj2
             (listener_resolver (RT := GoNet.runtime) "localhost:grpc" 0 0
                GoNet.a_listener GoNet.a_listener "localhost" "grpc" 0
                (errors_New "unused")
                (foreign_error
                   ("strconv.Atoi: parsing " ++ Str.dquote ++ "grpc"
                      ++ Str.dquote ++ ": invalid syntax") false)
                (errors_New "unused"))))
           eq_refl eq_refl). }
  exact (proj1 (proj2 (proj1 (proj2 (proj2 (proj2
           (listener_resolver (RT := GoNet.runtime) "127.0.0.1:0" 0 0
              GoNet.a_listener GoNet.a_listener "127.0.0.1" "0" 0
              (errors_New "unused") (errors_New "unused")
              (foreign_error "listen tcp: address -1: invalid port" false)))))
           eq_refl eq_refl)) eq_refl).
Defined.

(** The same resolver on an IPv6 address: the brackets that
    [net.SplitHostPort] removed are not put back, and [net.Listen] refuses
    the address. *)
Example listener_resolver_ipv6_run :
  newGRPCListener (RT := GoNet.runtime) None "[::1]:9090" 0
  = (Returned
       (GoNet.no_listener,
        Some (fmt_Errorf_w "new net listener: "
                (foreign_error
                   "listen tcp: address ::1:9089: too many colons in address"
                   false))),
     0, [EvListen "tcp" "::1:9089"]).
Proof. reflexivity. Qed.

(* ------------------------------------------------------------------ *)
(** ** Runs for the further properties *)

Lemma setGRPCTracing_keeps_options_witness :
  stackdriver_NewExporter (Runtime := Sample.runtime) "sample-project" 0
  = (inl Cases.exporter, 1)
  /\ setGRPCTracing (RT := Sample.runtime) true Cases.defaults 0
     = (Returned ((Cases.defaults ++ [grpc_StatsHandler_ocgrpc])%list, None),
        1,
        [EvNewExporter "sample-project"; EvRegisterExporter Cases.exporter;
         EvApplyAlwaysSample])
  /\ setGRPCTracing (RT := Sample.runtime) false Cases.defaults 0
     = (Returned (Cases.defaults, None), 0, [])
  /\ stackdriver_NewExporter (Runtime := Offline.runtime) "" 0
     = (inr (errors_New "missing project id"), 1)
  /\ setGRPCTracing (RT := Offline.runtime) true Cases.defaults 0
     = (Returned
          ([], Some (fmt_Errorf_w "new exporter: "
                       (errors_New "missing project id"))),
        1, [EvNewExporter ""])
  /\ firstn (length Cases.defaults)
       (Cases.defaults ++ [grpc_StatsHandler_ocgrpc])%list = Cases.defaults.
Proof.
  pose proof (setGRPCTracing_keeps_options (RT := Sample.runtime) true
                Cases.defaults
                (Cases.defaults ++ [grpc_StatsHandler_ocgrpc])%list None
                0 1 1
                [EvNewExporter "sample-project";
                 EvRegisterExporter Cases.exporter; EvApplyAlwaysSample]
                Cases.exporter (errors_New "unused")) as Hon.
  pose proof (setGRPCTracing_keeps_options (RT := Sample.runtime) false
                Cases.defaults Cases.defaults None 0 0 0 []
                Cases.exporter (errors_New "unused")) as Hoff.
  pose proof (setGRPCTracing_keeps_options (RT := Offline.runtime) true
                Cases.defaults [] None 0 1 1 []
                Cases.exporter (errors_New "missing project id")) as Hfail.
  split; [reflexivity |].
  split; [exact (proj1 (proj2 Hon) eq_refl eq_refl) |].
  split; [exact (proj1 Hoff eq_refl) |].
  split; [reflexivity |].
  split; [exact (proj1 (proj2 (proj2 Hfail)) eq_refl eq_refl) |].
  exact (proj1 (proj1 (proj2 (proj2 (proj2 Hon))
                         (proj1 (proj2 Hon) eq_refl eq_refl))
                  eq_refl)).
Defined.

Lemma server_or_error_witness :
  exists s err w' evs,
    newGRPCServerWithListener (RT := Sample.runtime) Cases.supplied
      "ignored" false Cases.defaults [] Cases.register None None None 0
    = (Returned (s, err), w', evs)
    /\ ((s = None /\ (exists e, err = Some e)
         /\ count is_ReflectionRegister evs = 0%nat
         /\ count is_RegisterServer evs = 0%nat)
        \/ (exists srv l,
              s = Some srv /\ err = None
              /\ listener srv = Some l
              /\ (forall l0, Cases.supplied = Some l0 -> l = l0)
              /\ count is_ReflectionRegister evs = 1%nat
              /\ count is_RegisterServer evs = present Cases.register)).
Proof.
  exact (server_or_error (RT := Sample.runtime) Cases.supplied "ignored"
           false Cases.defaults [] Cases.register None None None 0).
Defined.

Lemma tracing_failure_after_bind_witness :
  net_SplitHostPort (Runtime := Offline.runtime) "0.0.0.0:9090"
  = inl ("0.0.0.0", "9090")
  /\ newGRPCServerWithListener (RT := Offline.runtime) None "0.0.0.0:9090"
       true Cases.defaults [] Cases.register None None None 0
     = (Returned
          (None,
           Some (fmt_Errorf_w "set grpc tracing tracing: "
                   (fmt_Errorf_w "new exporter: "
                      (errors_New "missing project id")))),
        2,
        [EvListen "tcp" "0.0.0.0:9089"; EvNewExporter ""]).
Proof.
  split; [reflexivity |].
  exact (tracing_failure_after_bind (RT := Offline.runtime) "0.0.0.0:9090"
           "0.0.0.0" "9090" 9090 "0.0.0.0:9089"
           (errors_New "missing project id") Cases.defaults []
           Cases.register None None None 0 1 2
           eq_refl eq_refl eq_refl eq_refl).
Defined.

Lemma server_built_with_chain_witness :
  newGRPCServerWithListener (RT := Sample.runtime) Cases.supplied "ignored"
    true Cases.defaults [] Cases.register (Some Sample.logger) None None 0
  = (Returned
       (Some (mk_serverWithListener
                (mk_grpcServer
                   (grpc_NewServer
                      (Cases.defaults
                         ++ [grpc_StatsHandler_ocgrpc;
                             grpc_middleware_WithUnaryServerChain
                               [debugInterceptor (RT := Sample.runtime) Sample.logger]])%list))
                Cases.supplied),
        None),
     2,
     [EvNewExporter "sample-project"; EvRegisterExporter Cases.exporter;
      EvApplyAlwaysSample; EvReflectionRegister; EvRegisterServer])
  /\ server_options
       (grpc_NewServer
          (Cases.defaults
             ++ [grpc_StatsHandler_ocgrpc;
                 grpc_middleware_WithUnaryServerChain
                   [debugInterceptor (RT := Sample.runtime) Sample.logger]])%list)
     = ((Cases.defaults ++ [grpc_StatsHandler_ocgrpc])
          ++ [grpc_middleware_WithUnaryServerChain
                [debugInterceptor (RT := Sample.runtime) Sample.logger]])%list.
Proof.
  split; [reflexivity |].
  exact (server_built_with_chain (RT := Sample.runtime) Cases.supplied
           "ignored" true Cases.defaults [] Cases.register
           (Some Sample.logger) None None 0 2 _
           (mk_serverWithListener
              (mk_grpcServer
                 (grpc_NewServer
                    (Cases.defaults
                       ++ [grpc_StatsHandler_ocgrpc;
                           grpc_middleware_WithUnaryServerChain
                             [debugInterceptor (RT := Sample.runtime) Sample.logger]])%list))
              Cases.supplied)
           eq_refl).
Defined.

Lemma handleErr_reports_at_most_once_witness :
  errors_Is_Canceled context_Canceled = true
  /\ count is_ReportError
       (events (handleErr (RT := Sample.runtime) context_Canceled
                  (Sample.errorHandler false (None, None) None) 0)) = 0%nat
  /\ count is_ReportError
       (events (handleErr (RT := Sample.runtime) Sample.not_found
                  (Sample.errorHandler true
                     (Some Sample.user_not_found, None) None) 0)) = 0%nat.
Proof.
  split; [reflexivity |]. split.
  - exact (proj1 (proj2 (proj2 (proj2
             (handleErr_reports_at_most_once (RT := Sample.runtime)
                context_Canceled
                (Sample.errorHandler false (None, None) None) 0))))
           eq_refl).
  - exact (proj2 (proj2 (proj2 (proj2
             (handleErr_reports_at_most_once (RT := Sample.runtime)
                Sample.not_found
                (Sample.errorHandler true
                   (Some Sample.user_not_found, None) None) 0))))
           2 3 (Some Sample.user_not_found) eq_refl eq_refl).
Defined.

Lemma errorHandlerInterceptor_transparent_witness :
  outcome (Cases.ok_handler Sample.anonymous (Sample.payload "req") 0)
  = Returned (Some (Sample.payload "resp"), None)
  /\ errorHandlerInterceptor (RT := Sample.runtime)
       (Sample.errorHandler false (None, None) None) Sample.anonymous
       (Sample.payload "req") (Sample.info "/svc.Users/Get")
       Cases.ok_handler 0
     = Cases.ok_handler Sample.anonymous (Sample.payload "req") 0.
Proof.
  split; [reflexivity |].
  apply (errorHandlerInterceptor_transparent (RT := Sample.runtime)).
  intros err resp H. discriminate H.
Defined.

Lemma debug_interceptor_on_panic_witness :
  Sample.panicking "boom" Sample.anonymous (Sample.payload "req") 101
  = (Panicked (Sample.payload "boom"), 101, [])
  /\ debugInterceptor (RT := Sample.runtime) Sample.logger Sample.anonymous
       (Sample.payload "req") (Sample.info "/svc.Users/Get")
       (Sample.panicking "boom") 100
     = (Panicked (Sample.payload "boom"), 101,
        [EvDebug "request started"
           [zap_String "trace_id" "00000000-0000-0000-0000-000000000000";
            zap_String "method" "Get"]]).
Proof.
  split; [reflexivity |].
  exact (proj1 (debug_interceptor_on_panic (RT := Sample.runtime)
                  Sample.logger Sample.anonymous (Sample.payload "req")
                  (Sample.info "/svc.Users/Get") (Sample.panicking "boom")
                  100 101 (Sample.payload "boom") [] eq_refl)).
Defined.

Lemma chain_recovers_panic_witness :
  is_probe (path_Base "/svc.Users/Get") = false
  /\ outcome
       (grpc_middleware_ChainUnaryServer
          (newGRPCServerWithListener_interceptors (RT := Sample.runtime) []
             (Some Sample.logger)
             (Some (Sample.errorHandler false (None, None) None))
             (Some (Sample.panicHandler None)))
          (Sample.identified "rid-7") (Sample.payload "req")
          (Sample.info "/svc.Users/Get") (Sample.panicking "boom") 100)
     = Returned (None, Some (status_error internal_status)).
Proof.
  split; [reflexivity |].
  rewrite (proj1 (chain_recovers_panic (RT := Sample.runtime) Sample.logger
                    (Sample.errorHandler false (None, None) None)
                    (Sample.panicHandler None) []
                    (Sample.identified "rid-7") (Sample.payload "req")
                    (Sample.info "/svc.Users/Get") (Sample.panicking "boom")
                    100 101 103 (Sample.payload "boom") [] None
                    eq_refl eq_refl eq_refl)).
  reflexivity.
Defined.

Lemma chain_treats_cancellation_as_success_witness :
  errors_Is_Canceled context_Canceled = true
  /\ outcome
       (grpc_middleware_ChainUnaryServer
          (newGRPCServerWithListener_interceptors (RT := Sample.runtime) []
             (Some Sample.logger)
             (Some (Sample.errorHandler false (None, None) None))
             (Some (Sample.panicHandler None)))
          (Sample.identified "rid-9") (Sample.payload "req")
          (Sample.info "/svc.Users/Get")
          (Sample.handler 5 (Some "partial", Some context_Canceled)) 100)
     = Returned (None, None)
  /\ count is_Debug
       (events
          (grpc_middleware_ChainUnaryServer
             (newGRPCServerWithListener_interceptors (RT := Sample.runtime) []
                (Some Sample.logger)
                (Some (Sample.errorHandler false (None, None) None))
                (Some (Sample.panicHandler None)))
             (Sample.identified "rid-9") (Sample.payload "req")
             (Sample.info "/svc.Users/Get")
             (Sample.handler 5 (Some "partial", Some context_Canceled)) 100))
     = 2%nat.
Proof.
  split; [reflexivity |].
  rewrite (chain_treats_cancellation_as_success (RT := Sample.runtime)
             Sample.logger (Sample.errorHandler false (None, None) None)
             (Sample.panicHandler None) []
             (Sample.identified "rid-9") (Sample.payload "req")
             (Sample.info "/svc.Users/Get")
             (Sample.handler 5 (Some "partial", Some context_Canceled))
             100 106 (Some (Sample.payload "partial")) context_Canceled []
             eq_refl eq_refl eq_refl).
  split; reflexivity.
Defined.

Lemma chain_masks_before_debug_witness :
  errors_Is_Canceled Sample.not_found = false
  /\ outcome
       (grpc_middleware_ChainUnaryServer
          (newGRPCServerWithListener_interceptors (RT := Sample.runtime) []
             (Some Sample.logger)
             (Some (Sample.errorHandler false (None, None) None))
             (Some (Sample.panicHandler None)))
          (Sample.identified "rid-8") (Sample.payload "req")
          (Sample.info "/svc.Users/Get")
          (Sample.handler 5 (Some "partial", Some Sample.not_found)) 100)
     = Returned (None, Some (status_error internal_status)).
Proof.
  split; [reflexivity |].
  rewrite (proj1 (chain_masks_before_debug (RT := Sample.runtime)
                    Sample.logger
                    (Sample.errorHandler false (None, None) None)
                    (Sample.panicHandler None) []
                    (Sample.identified "rid-8") (Sample.payload "req")
                    (Sample.info "/svc.Users/Get")
                    (Sample.handler 5 (Some "partial", Some Sample.not_found))
                    100 106 108 109 (Some (Sample.payload "partial"))
                    Sample.not_found [] None
                    eq_refl eq_refl eq_refl eq_refl eq_refl)).
  reflexivity.
Defined.

Lemma Subscribe_exactly_one_channel_witness :
  Kafka.Subscribe Kafka.Sample.subscriber [] O
  = ((Kafka.Sample.no_subscription,
      Some (errors_New "exactly one channel is allowed")), O, [])
  /\ Kafka.Subscribe Kafka.Sample.subscriber ["orders"; "payments"] O
     = ((Kafka.Sample.no_subscription,
         Some (errors_New "exactly one channel is allowed")), O, [])
  /\ Kafka.Subscribe Kafka.Sample.subscriber ["orders"] O
     = ((Kafka.Sample.subscription "orders", None), 1%nat,
        [Kafka.Sample.subscribed "orders"])
  /\ Kafka.Subscribe Kafka.Sample.subscriber ["-bad"] O
     = ((Kafka.Sample.no_subscription,
         Some (fmt_Errorf_w "subscribe: " (errors_New "invalid topic"))),
        1%nat, [Kafka.Sample.subscribed "-bad"]).
Proof.
  split.
  { apply (proj1 (Subscribe_exactly_one_channel (E := Kafka.Sample.env)
                    Kafka.Sample.subscriber [] O)).
    discriminate. }
  split.
  { apply (proj1 (Subscribe_exactly_one_channel (E := Kafka.Sample.env)
                    Kafka.Sample.subscriber ["orders"; "payments"] O)).
    discriminate. }
  split.
  { exact (proj1 (proj2 (Subscribe_exactly_one_channel (E := Kafka.Sample.env)
                           Kafka.Sample.subscriber ["orders"] O))
             "orders" eq_refl). }
  exact (proj1 (proj2 (Subscribe_exactly_one_channel (E := Kafka.Sample.env)
                         Kafka.Sample.subscriber ["-bad"] O))
           "-bad" eq_refl).
Defined.

Lemma NewSubscriber_result_witness :
  fst (fst (Kafka.NewSubscriber Kafka.Sample.logger Kafka.Sample.config []
              "group-a" O))
  = (Kafka.Sample.no_subscriber,
     Some (fmt_Errorf_w "new sarama client: " (errors_New "no brokers")))
  /\ fst (fst (Kafka.NewSubscriber Kafka.Sample.logger Kafka.Sample.config
                 Kafka.Sample.brokers "" O))
     = (Kafka.Sample.no_subscriber,
        Some (fmt_Errorf_w "new kafka subscriber: "
                (errors_New "no consumer group"))).
Proof.
  split.
  - exact (proj1 (proj1 (proj2 (proj2 (proj2
             (NewSubscriber_result (E := Kafka.Sample.env)
                Kafka.Sample.logger Kafka.Sample.config [] "group-a" O))))
             (errors_New "no brokers") 1%nat eq_refl)).
  - exact (proj2 (proj2 (proj2 (proj2
             (NewSubscriber_result (E := Kafka.Sample.env)
                Kafka.Sample.logger Kafka.Sample.config
                Kafka.Sample.brokers "" O))))
             Kafka.Sample.brokers 1%nat (errors_New "no consumer group")
             2%nat eq_refl eq_refl).
Defined.

Lemma NewSubscriber_then_Subscribe_witness :
  exists s,
    fst (Kafka.NewSubscriber Kafka.Sample.logger Kafka.Sample.config
           Kafka.Sample.brokers "group-a" O)
    = ((Some s, None), 2%nat)
    /\ Kafka.Subscribe s ["orders"] 2%nat
       = ((Kafka.Sample.subscription "orders", None), 3%nat,
          [Kafka.Sample.subscribed "orders"])
    /\ Kafka.Close s 3%nat
       = (fst (Kafka.kafka_Close (Kafka.kafkaSubscriber
                                    Kafka.Sample.subscriber) 3%nat),
          snd (Kafka.kafka_Close (Kafka.kafkaSubscriber
                                    Kafka.Sample.subscriber) 3%nat),
          [Kafka.Sample.closed]).
Proof.
  exact (NewSubscriber_then_Subscribe (E := Kafka.Sample.env)
           Kafka.Sample.logger Kafka.Sample.config Kafka.Sample.brokers
           "group-a" "orders" Kafka.Sample.brokers
           (Kafka.kafkaSubscriber Kafka.Sample.subscriber)
           "group-a/orders" O 1%nat 2%nat 2%nat 3%nat
           eq_refl eq_refl eq_refl).
Defined.

(** A request over TLS with a request id, logged from start to completion. *)
Example http_request_logged :
  let started :=
    HTTPLog.NewLogEntry (E := HTTPLog.Sample.env)
      (HTTPLog.mk_structuredLogger HTTPLog.Sample.base)
      HTTPLog.Sample.get_users 1700 in
  snd started
  = [HTTPLog.Info HTTPLog.Sample.get_users_logger
       "request started"]
  /\ length (HTTPLog.context
               (HTTPLog.entry_Logger
                  (fst (HTTPLog.Write (fst started) 200 512 3000000))))
     = 12%nat
  /\ length (HTTPLog.context
               (HTTPLog.entry_Logger
                  (fst (HTTPLog.NewLogEntry (E := HTTPLog.Sample.env)
                          (HTTPLog.mk_structuredLogger HTTPLog.Sample.base)
                          HTTPLog.Sample.plain 1700))))
     = 8%nat.
Proof. repeat split. Qed.

Lemma NewLogEntry_fields_witness :
  HTTPLog.NewLogEntry (E := HTTPLog.Sample.env)
    (HTTPLog.mk_structuredLogger HTTPLog.Sample.base)
    HTTPLog.Sample.get_users 1700
  = (HTTPLog.mk_structuredLoggerEntry HTTPLog.Sample.get_users_logger,
     [HTTPLog.Info HTTPLog.Sample.get_users_logger "request started"])
  /\ HTTPLog.TLS HTTPLog.Sample.get_users <> None.
Proof.
  split.
  - exact (proj1 (NewLogEntry_fields (E := HTTPLog.Sample.env)
                    (HTTPLog.mk_structuredLogger HTTPLog.Sample.base)
                    HTTPLog.Sample.get_users 1700)).
  - apply (proj1 (proj1 (proj2 (proj2 (proj2
             (NewLogEntry_fields (E := HTTPLog.Sample.env)
                (HTTPLog.mk_structuredLogger HTTPLog.Sample.base)
                HTTPLog.Sample.get_users 1700)))))).
    reflexivity.
Defined.
